(** * Inventory-Sys-Client: the data gateway of [src/state/api.ts]

    The gateway is a set of five request handlers over one hosted
    relational backend.  Each handler builds a PostgREST request with the
    Supabase query builder, awaits the response, renames the snake_case
    columns of the rows into the camelCase fields of a view model, and
    wraps every failure into one error envelope.

    The development has these parts:
    - [Js]: the JavaScript values the handlers manipulate (rows typed
      [any], object literals, property reads, [toString], truthiness);
    - [supabase]: the query builder calls the handlers make, and the
      client interface [Supabase] that answers an awaited builder;
    - the five handlers, over any client;
    - [Postgres]: a reference backend, built from the tables, constraints
      and defaults of the schema migration, that answers those requests,
      and [Seed], the sample data of the migration;
    - [Scripted]: a client that replays recorded responses, and
      [Recorded]: one that also keeps the requests it was sent;
    - the properties: first those that hold over any client, then those
      of the handlers over the reference backend. *)

From Stdlib Require Import QArith Ascii String.
From Stdlib Require Import Sorted Permutation.
From stdpp Require Import gmap strings list fin_maps pretty sorting.

Close Scope Q_scope.
Open Scope string_scope.

(** ** JavaScript values *)

Module Js.

(** The values a JSON row and a view model can hold.  Numbers are
    modelled as exact rationals: the gateway never computes with them, it
    passes them through, and the store compares them. *)
Inductive JsVal :=
| JsUndefined
| JsNull
| JsBoolean (b : bool)
| JsNumber (q : Q)
| JsString (s : string).

(** A plain object: a finite map from property names to values. *)
Abbreviation Obj := (gmap string JsVal).

(** An object literal [{k1: v1, k2: v2, ...}]. *)
Definition obj (fields : list (string * JsVal)) : Obj := list_to_map fields.

(** Property read [o.k]: a missing property reads as [undefined]. *)
Definition prop (o : Obj) (k : string) : JsVal := default JsUndefined (o !! k).

(** What a [throw] inside the handlers can carry: the error object of a
    backend response, or the [TypeError] of the runtime. *)
Record PostgrestError := {
  message : string;
  details : string;
  hint : string;
  code : string;
}.

Inductive Thrown :=
| ThrownPostgrest (e : PostgrestError)
| ThrownTypeError (msg : string).

(** [error.message] in a [catch (error: any)] block. *)
Definition error_message (t : Thrown) : JsVal :=
  match t with
  | ThrownPostgrest e => JsString (message e)
  | ThrownTypeError msg => JsString msg
  end.

(** The body of a [try] block either returns or throws. *)
Inductive Try (A : Type) :=
| Returned (a : A)
| Threw (t : Thrown).
Arguments Returned {A} a.
Arguments Threw {A} t.

Definition try_bind {A B} (m : Try A) (k : A -> Try B) : Try B :=
  match m with
  | Returned a => k a
  | Threw t => Threw t
  end.

(** [xs.map(f)] where [f] may throw: the first throw aborts the map. *)
Fixpoint try_map {A B} (f : A -> Try B) (xs : list A) : Try (list B) :=
  match xs with
  | [] => Returned []
  | x :: xs' =>
      try_bind (f x) (fun y =>
      try_bind (try_map f xs') (fun ys => Returned (y :: ys)))
  end.

(** [if (v)] on a [string | void] argument: [undefined] and the empty
    string are falsy, every other string is truthy. *)
Definition truthy (search : option string) : bool :=
  match search with
  | None => false
  | Some "" => false
  | Some _ => true
  end.

(** [`${v}`] in a template literal, for a [string | void] value. *)
Definition template (v : option string) : string :=
  match v with
  | Some s => s
  | None => "undefined"
  end.

Section ToString.
(** [Number.prototype.toString]: the decimal rendering of a number.
    Its digits play no role in the gateway, so it stays a parameter. *)
Variable Number_toString : Q -> string.

(** [v.toString()]: reading a property of [undefined] or [null]
    throws a [TypeError]; a string is its own rendering. *)
Definition toString (v : JsVal) : Try JsVal :=
  match v with
  | JsUndefined =>
      Threw (ThrownTypeError
               "Cannot read properties of undefined (reading 'toString')")
  | JsNull =>
      Threw (ThrownTypeError
               "Cannot read properties of null (reading 'toString')")
  | JsBoolean true => Returned (JsString "true")
  | JsBoolean false => Returned (JsString "false")
  | JsNumber q => Returned (JsString (Number_toString q))
  | JsString s => Returned (JsString s)
  end.
End ToString.

End Js.
Import Js.

Notation "'let*' x ':=' m 'in' k" := (try_bind m (fun x => k))
  (at level 10, x name, m at level 100, k at level 200).

(** ** The Supabase query builder *)

Module supabase.

Record Order := { order_column : string; ascending : bool }.

Inductive Filter := Ilike (column pattern : string).

(** The request a chain of builder calls has assembled so far. *)
Record PostgrestBuilder := {
  table : string;
  inserted : option (list Obj);
  filters : list Filter;
  ordering : list Order;
  row_limit : option nat;
}.

(** [supabase.from(t)] *)
Definition from (t : string) : PostgrestBuilder :=
  {| table := t; inserted := None; filters := []; ordering := [];
     row_limit := None |}.

(** [.select("*")] and [.select()]: every column of the rows. *)
Definition select (q : PostgrestBuilder) : PostgrestBuilder := q.

(** [.insert(rows)] *)
Definition insert (rows : list Obj) (q : PostgrestBuilder) : PostgrestBuilder :=
  {| table := table q; inserted := Some rows; filters := filters q;
     ordering := ordering q; row_limit := row_limit q |}.

(** [.ilike(column, pattern)] *)
Definition ilike (column pattern : string) (q : PostgrestBuilder)
  : PostgrestBuilder :=
  {| table := table q; inserted := inserted q;
     filters := filters q ++ [Ilike column pattern];
     ordering := ordering q; row_limit := row_limit q |}.

(** [.order(column, { ascending })] *)
Definition order (column : string) (o : bool) (q : PostgrestBuilder)
  : PostgrestBuilder :=
  {| table := table q; inserted := inserted q; filters := filters q;
     ordering := ordering q ++ [{| order_column := column; ascending := o |}];
     row_limit := row_limit q |}.

(** [.limit(n)] *)
Definition limit (n : nat) (q : PostgrestBuilder) : PostgrestBuilder :=
  {| table := table q; inserted := inserted q; filters := filters q;
     ordering := ordering q; row_limit := Some n |}.

(** The two shapes of an awaited builder: [{ data, error }] with either
    the payload or the error set. *)
Inductive PostgrestResponse (T : Type) :=
| Success (data : T)
| Failure (error : PostgrestError).
Arguments Success {T} data.
Arguments Failure {T} error.

End supabase.
Import supabase.

Notation "q |> f" := (f q) (at level 45, left associativity, only parsing).

(** An asynchronous computation over the backend state [S]. *)
Definition Async (S A : Type) : Type := S -> A * S.

Definition ret {S A} (a : A) : Async S A := fun s => (a, s).

Definition bind {S A B} (m : Async S A) (k : A -> Async S B) : Async S B :=
  fun s => let (a, s') := m s in k a s'.

Notation "'let!' x ':=' m 'in' k" := (bind m (fun x => k))
  (at level 10, x name, m at level 100, k at level 200).

(** The client exported by [@/lib/supabase]: awaiting a builder sends the
    request and yields the response; [.single()] asks for exactly one row
    as an object instead of an array. *)
Class Supabase (S : Type) := {
  await : PostgrestBuilder -> Async S (PostgrestResponse (list Obj));
  await_single : PostgrestBuilder -> Async S (PostgrestResponse Obj);
}.

(** ** The gateway: [src/state/api.ts] *)

(** [NewProduct], the typed argument of [createProduct]; [rating] is the
    optional field. *)
Record NewProduct := {
  name : string;
  price : Q;
  rating : option Q;
  stockQuantity : Q;
}.

(** [DashboardMetrics], the composite view model. *)
Record DashboardMetrics := {
  popularProducts : list Obj;
  salesSummary : list Obj;
  purchaseSummary : list Obj;
  expenseSummary : list Obj;
  expenseByCategorySummary : list Obj;
}.

(** What a [queryFn] returns: [{ data }] or [{ error }]. *)
Inductive QueryReturn (T : Type) :=
| Data (data : T)
| Error (error : Obj).
Arguments Data {T} data.
Arguments Error {T} error.

(** [if (r.error) throw r.error], then the use of [r.data]. *)
Definition throw_if_error {T} (r : PostgrestResponse T) : Try T :=
  match r with
  | Success data => Returned data
  | Failure error => Threw (ThrownPostgrest error)
  end.

(** [try { body } catch (error: any) { return { error: { status: 500,
    data: error.message } } }] *)
Definition try_catch {T} (body : Try T) : QueryReturn T :=
  match body with
  | Returned data => Data data
  | Threw error =>
      Error (obj [("status", JsNumber (inject_Z 500));
                  ("data", error_message error)])
  end.

(** The row mappers, one per object literal of the source. *)

Definition mapProduct (p : Obj) : Obj :=
  obj [("productId", prop p "product_id");
       ("name", prop p "name");
       ("price", prop p "price");
       ("rating", prop p "rating");
       ("stockQuantity", prop p "stock_quantity")].

Definition mapSalesSummary (s : Obj) : Obj :=
  obj [("salesSummaryId", prop s "sales_summary_id");
       ("totalValue", prop s "total_value");
       ("changePercentage", prop s "change_percentage");
       ("date", prop s "date")].

Definition mapPurchaseSummary (p : Obj) : Obj :=
  obj [("purchaseSummaryId", prop p "purchase_summary_id");
       ("totalPurchased", prop p "total_purchased");
       ("changePercentage", prop p "change_percentage");
       ("date", prop p "date")].

Definition mapExpenseSummary (e : Obj) : Obj :=
  obj [("expenseSummarId", prop e "expense_summary_id");
       ("totalExpenses", prop e "total_expenses");
       ("date", prop e "date")].

Definition mapUser (u : Obj) : Obj :=
  obj [("userId", prop u "user_id");
       ("name", prop u "name");
       ("email", prop u "email")].

Section Gateway.

Context {S : Type} `{Supabase S}.
Variable Number_toString : Q -> string.

Definition mapExpenseByCategory (e : Obj) : Try Obj :=
  let* amount := toString Number_toString (prop e "amount") in
  Returned (obj [("expenseByCategorySummaryId", prop e "expense_by_category_id");
                 ("category", prop e "category");
                 ("amount", amount);
                 ("date", prop e "date")]).

(** [await Promise.all([...])]: every builder is sent, in the order of the
    array, and the responses come back in that order.  An awaited builder
    resolves to a response object even when the request failed, so the
    join itself does not reject. *)
Fixpoint Promise_all (qs : list PostgrestBuilder)
  : Async S (list (PostgrestResponse (list Obj))) :=
  match qs with
  | [] => ret []
  | q :: qs' =>
      let! r := await q in
      let! rs := Promise_all qs' in
      ret (r :: rs)
  end.

Definition dashboard_queries : list PostgrestBuilder :=
  [from "products" |> select |> order "stock_quantity" false |> limit 5;
   from "sales_summary" |> select |> order "date" true;
   from "purchase_summary" |> select |> order "date" true;
   from "expense_summary" |> select |> order "date" true;
   from "expense_by_category" |> select |> order "amount" false].

(** The body of [getDashboardMetrics] after the join: the five [error]
    fields are tested in the order of the array, then the rows are mapped. *)
Definition dashboard_of (responses : list (PostgrestResponse (list Obj)))
  : Try DashboardMetrics :=
  match responses with
  | [products; salesSummary; purchaseSummary; expenseSummary;
     expenseByCategory] =>
      let* products_data := throw_if_error products in
      let* salesSummary_data := throw_if_error salesSummary in
      let* purchaseSummary_data := throw_if_error purchaseSummary in
      let* expenseSummary_data := throw_if_error expenseSummary in
      let* expenseByCategory_data := throw_if_error expenseByCategory in
      let* expenseByCategory_rows :=
        try_map mapExpenseByCategory expenseByCategory_data in
      Returned {|
        popularProducts := map mapProduct products_data;
        salesSummary := map mapSalesSummary salesSummary_data;
        purchaseSummary := map mapPurchaseSummary purchaseSummary_data;
        expenseSummary := map mapExpenseSummary expenseSummary_data;
        expenseByCategorySummary := expenseByCategory_rows;
      |}
  | _ =>
      Threw (ThrownTypeError
               "Cannot read properties of undefined (reading 'error')")
  end.

Definition getDashboardMetrics : Async S (QueryReturn DashboardMetrics) :=
  let! responses := Promise_all dashboard_queries in
  ret (try_catch (dashboard_of responses)).

(** The builder [getProducts] awaits: the filter is added only when the
    argument is truthy, and the argument is spliced into the pattern as it
    is. *)
Definition getProducts_query (search : option string) : PostgrestBuilder :=
  let query := from "products" |> select in
  if truthy search
  then query |> ilike "name" ("%" +:+ template search +:+ "%")
  else query.

Definition getProducts (search : option string)
  : Async S (QueryReturn (list Obj)) :=
  let! response := await (getProducts_query search) in
  ret (try_catch (
    let* data := throw_if_error response in
    Returned (map mapProduct data))).

(** The row literal [createProduct] inserts. *)
Definition newProduct_row (newProduct : NewProduct) : Obj :=
  obj [("name", JsString (name newProduct));
       ("price", JsNumber (price newProduct));
       ("rating", match rating newProduct with
                  | Some r => JsNumber r
                  | None => JsUndefined
                  end);
       ("stock_quantity", JsNumber (stockQuantity newProduct))].

Definition createProduct (newProduct : NewProduct)
  : Async S (QueryReturn Obj) :=
  let! response :=
    await_single
      (from "products" |> insert [newProduct_row newProduct] |> select) in
  ret (try_catch (
    let* data := throw_if_error response in
    Returned (mapProduct data))).

Definition getUsers : Async S (QueryReturn (list Obj)) :=
  let! response := await (from "users" |> select) in
  ret (try_catch (
    let* data := throw_if_error response in
    Returned (map mapUser data))).

Definition getExpensesByCategory : Async S (QueryReturn (list Obj)) :=
  let! response :=
    await (from "expense_by_category" |> select |> order "amount" false) in
  ret (try_catch (
    let* data := throw_if_error response in
    try_map mapExpenseByCategory data)).

End Gateway.

(** ** The backend: PostgREST over the schema of the migration

    A reference implementation of the client interface, following
    [supabase/migrations/20251028215138_create_inventory_management_schema.sql]:
    the six tables with their column types, [NOT NULL], [CHECK], [DEFAULT]
    and key constraints, and the requests the row-level-security policies
    let an anonymous client make. *)

Module Postgres.

(** *** Pattern matching: [ILIKE]

    [LIKE] as PostgreSQL defines it, with the default escape character,
    and [ILIKE] as its variant that ignores letter case.  A text is the
    sequence of the bytes of its UTF-8 encoding.  The matcher below folds
    the case of the ASCII letters and lets [_] take one byte: on texts of
    ASCII characters, where a character is a byte, this is what the store
    does.  The folding of other letters is that of the locale of the
    database and is not modelled; the properties that rest on folding or on
    counting characters are stated for texts of ASCII characters. *)

(** Case folding of one character; only the letters [A]-[Z] change. *)
Definition lower (c : ascii) : ascii :=
  let n := N_of_ascii c in
  if ((65 <=? n) && (n <=? 90))%N then ascii_of_N (n + 32) else c.

Fixpoint lowercase (s : string) : string :=
  match s with
  | "" => ""
  | String c s' => String (lower c) (lowercase s')
  end.

(** The elements of a [LIKE] pattern: [%] stands for any sequence of
    characters, [_] for any single character, and the backslash makes the
    character after it stand for itself. *)
Inductive token :=
| AnySeq
| AnyChar
| Lit (c : ascii).

(** [None]: the pattern ends with an escape character. *)
Fixpoint tokens (p : string) : option (list token) :=
  match p with
  | "" => Some []
  | String "\" "" => None
  | String "\" (String c p') => cons (Lit c) <$> tokens p'
  | String "%" p' => cons AnySeq <$> tokens p'
  | String "_" p' => cons AnyChar <$> tokens p'
  | String c p' => cons (Lit c) <$> tokens p'
  end.

Fixpoint matches (ts : list token) : string -> bool :=
  match ts with
  | [] => fun s => match s with "" => true | String _ _ => false end
  | AnySeq :: ts' =>
      fix skip (s : string) : bool :=
        matches ts' s ||
        match s with "" => false | String _ s' => skip s' end
  | AnyChar :: ts' =>
      fun s => match s with "" => false | String _ s' => matches ts' s' end
  | Lit c :: ts' =>
      fun s =>
        match s with
        | "" => false
        | String d s' => bool_decide (lower c = lower d) && matches ts' s'
        end
  end.

(** PostgREST reads [*] in the operand of [like] and [ilike] as [%]. *)
Fixpoint star_to_percent (p : string) : string :=
  match p with
  | "" => ""
  | String "*" p' => String "%" (star_to_percent p')
  | String c p' => String c (star_to_percent p')
  end.

(** [column=ilike.pattern] on a text value. *)
Definition ilike_match (pattern value : string) : option bool :=
  (fun ts => matches ts value) <$> tokens (star_to_percent pattern).

(** *** Ordering of column values: [ORDER BY] *)

Definition sql_rank (v : JsVal) : nat :=
  match v with
  | JsBoolean _ => 0
  | JsNumber _ => 1
  | JsString _ => 2
  | JsNull | JsUndefined => 3
  end.

(** The ascending order of the values of one column: numbers by value,
    texts (here: ISO dates) character by character, [NULL] after every
    value. *)
Definition sql_leb (a b : JsVal) : bool :=
  match a, b with
  | JsNumber x, JsNumber y => Qle_bool x y
  | JsString x, JsString y => String.leb x y
  | JsBoolean x, JsBoolean y => implb x y
  | _, _ => Nat.leb (sql_rank a) (sql_rank b)
  end.

(** [a] may stay before [b] under the ordering [o]; descending is the
    ascending order read backwards, so that [NULL] comes first. *)
Definition in_order (o : Order) (a b : Obj) : bool :=
  if ascending o
  then sql_leb (prop a (order_column o)) (prop b (order_column o))
  else sql_leb (prop b (order_column o)) (prop a (order_column o)).

(** Stable insertion sort: rows that compare equal keep their order. *)
Fixpoint insert_sorted (o : Order) (x : Obj) (rows : list Obj) : list Obj :=
  match rows with
  | [] => [x]
  | y :: rows' =>
      if in_order o x y then x :: y :: rows'
      else y :: insert_sorted o x rows'
  end.

Definition sort_by (o : Order) (rows : list Obj) : list Obj :=
  foldr (insert_sorted o) [] rows.

(** Several [order] clauses: the first is the primary key. *)
Definition order_rows (os : list Order) (rows : list Obj) : list Obj :=
  foldr sort_by rows os.

Definition limit_rows (n : option nat) (rows : list Obj) : list Obj :=
  match n with
  | Some k => firstn k rows
  | None => rows
  end.

(** *** The schema *)

Inductive sqltype := uuid | text | numeric | integer | date | timestamptz.

(** A nullable column holds [NULL] or a value; JSON shows [NULL] as [null]. *)
Definition nullable {A} (f : A -> JsVal) (v : option A) : JsVal :=
  from_option f JsNull v.

Module Products.
Record row := {
  product_id : string;
  name : string;
  price : Q;
  rating : option Q;
  stock_quantity : Z;
  created_at : option string;
  updated_at : option string;
}.
Definition columns : list (string * sqltype) :=
  [("product_id", uuid); ("name", text); ("price", numeric);
   ("rating", numeric); ("stock_quantity", integer);
   ("created_at", timestamptz); ("updated_at", timestamptz)].
Definition to_json (r : row) : Obj :=
  obj [("product_id", JsString (product_id r));
       ("name", JsString (name r));
       ("price", JsNumber (price r));
       ("rating", nullable JsNumber (rating r));
       ("stock_quantity", JsNumber (inject_Z (stock_quantity r)));
       ("created_at", nullable JsString (created_at r));
       ("updated_at", nullable JsString (updated_at r))].
(** [CHECK (price >= 0)], [CHECK (rating >= 0 AND rating <= 5)],
    [CHECK (stock_quantity >= 0)]; a check on [NULL] passes. *)
Definition price_check (r : row) : bool := Qle_bool 0 (price r).
Definition rating_check (r : row) : bool :=
  match rating r with
  | Some x => Qle_bool 0 x && Qle_bool x (inject_Z 5)
  | None => true
  end.
Definition stock_quantity_check (r : row) : bool := (0 <=? stock_quantity r)%Z.
End Products.

Module Users.
Record row := {
  user_id : string;
  name : string;
  email : string;
  created_at : option string;
}.
Definition columns : list (string * sqltype) :=
  [("user_id", uuid); ("name", text); ("email", text);
   ("created_at", timestamptz)].
Definition to_json (r : row) : Obj :=
  obj [("user_id", JsString (user_id r));
       ("name", JsString (name r));
       ("email", JsString (email r));
       ("created_at", nullable JsString (created_at r))].
End Users.

Module SalesSummary.
Record row := {
  sales_summary_id : string;
  total_value : Q;
  change_percentage : option Q;
  date : string;
  created_at : option string;
}.
Definition columns : list (string * sqltype) :=
  [("sales_summary_id", uuid); ("total_value", numeric);
   ("change_percentage", numeric); ("date", Postgres.date);
   ("created_at", timestamptz)].
Definition to_json (r : row) : Obj :=
  obj [("sales_summary_id", JsString (sales_summary_id r));
       ("total_value", JsNumber (total_value r));
       ("change_percentage", nullable JsNumber (change_percentage r));
       ("date", JsString (date r));
       ("created_at", nullable JsString (created_at r))].
End SalesSummary.

Module PurchaseSummary.
Record row := {
  purchase_summary_id : string;
  total_purchased : Q;
  change_percentage : option Q;
  date : string;
  created_at : option string;
}.
Definition columns : list (string * sqltype) :=
  [("purchase_summary_id", uuid); ("total_purchased", numeric);
   ("change_percentage", numeric); ("date", Postgres.date);
   ("created_at", timestamptz)].
Definition to_json (r : row) : Obj :=
  obj [("purchase_summary_id", JsString (purchase_summary_id r));
       ("total_purchased", JsNumber (total_purchased r));
       ("change_percentage", nullable JsNumber (change_percentage r));
       ("date", JsString (date r));
       ("created_at", nullable JsString (created_at r))].
End PurchaseSummary.

Module ExpenseSummary.
Record row := {
  expense_summary_id : string;
  total_expenses : Q;
  date : string;
  created_at : option string;
}.
Definition columns : list (string * sqltype) :=
  [("expense_summary_id", uuid); ("total_expenses", numeric);
   ("date", Postgres.date); ("created_at", timestamptz)].
Definition to_json (r : row) : Obj :=
  obj [("expense_summary_id", JsString (expense_summary_id r));
       ("total_expenses", JsNumber (total_expenses r));
       ("date", JsString (date r));
       ("created_at", nullable JsString (created_at r))].
End ExpenseSummary.

Module ExpenseByCategory.
Record row := {
  expense_by_category_id : string;
  category : string;
  amount : Q;
  date : string;
  created_at : option string;
}.
Definition columns : list (string * sqltype) :=
  [("expense_by_category_id", uuid); ("category", text);
   ("amount", numeric); ("date", Postgres.date);
   ("created_at", timestamptz)].
Definition to_json (r : row) : Obj :=
  obj [("expense_by_category_id", JsString (expense_by_category_id r));
       ("category", JsString (category r));
       ("amount", JsNumber (amount r));
       ("date", JsString (date r));
       ("created_at", nullable JsString (created_at r))].
End ExpenseByCategory.

(** The stored state.  [gen_random_uuid] and [now] are the values the two
    default expressions yield, statement after statement; [tick] counts the
    statements that have drawn from them. *)
Record Database := {
  products : list Products.row;
  users : list Users.row;
  sales_summary : list SalesSummary.row;
  purchase_summary : list PurchaseSummary.row;
  expense_summary : list ExpenseSummary.row;
  expense_by_category : list ExpenseByCategory.row;
  gen_random_uuid : nat -> string;
  now : nat -> string;
  tick : nat;
}.

(** A table as the API exposes it: its columns and its rows as JSON. *)
Definition resource (db : Database) (t : string)
  : option (list (string * sqltype) * list Obj) :=
  if bool_decide (t = "products") then
    Some (Products.columns, map Products.to_json (products db))
  else if bool_decide (t = "users") then
    Some (Users.columns, map Users.to_json (users db))
  else if bool_decide (t = "sales_summary") then
    Some (SalesSummary.columns, map SalesSummary.to_json (sales_summary db))
  else if bool_decide (t = "purchase_summary") then
    Some (PurchaseSummary.columns,
          map PurchaseSummary.to_json (purchase_summary db))
  else if bool_decide (t = "expense_summary") then
    Some (ExpenseSummary.columns,
          map ExpenseSummary.to_json (expense_summary db))
  else if bool_decide (t = "expense_by_category") then
    Some (ExpenseByCategory.columns,
          map ExpenseByCategory.to_json (expense_by_category db))
  else None.

(** *** Errors *)

Definition dquote (s : string) : string :=
  String (ascii_of_N 34) (s +:+ String (ascii_of_N 34) "").

Definition pg_error (sqlstate msg : string) : PostgrestError :=
  {| message := msg; details := ""; hint := ""; code := sqlstate |}.

Definition undefined_table (t : string) : PostgrestError :=
  pg_error "PGRST205"
    ("Could not find the table 'public." +:+ t +:+ "' in the schema cache").
Definition undefined_column (t c : string) : PostgrestError :=
  pg_error "42703" ("column " +:+ t +:+ "." +:+ c +:+ " does not exist").
Definition unknown_column (t c : string) : PostgrestError :=
  pg_error "PGRST204"
    ("Could not find the '" +:+ c +:+ "' column of '" +:+ t +:+
     "' in the schema cache").
Definition undefined_function : PostgrestError :=
  pg_error "42883" "operator does not exist".
Definition invalid_escape_sequence : PostgrestError :=
  pg_error "22025" "LIKE pattern must not end with escape character".
Definition invalid_text_representation (c : string) : PostgrestError :=
  pg_error "22P02" ("invalid input syntax for column " +:+ dquote c).
Definition not_null_violation (t c : string) : PostgrestError :=
  pg_error "23502"
    ("null value in column " +:+ dquote c +:+ " of relation " +:+ dquote t +:+
     " violates not-null constraint").
Definition check_violation (t constraint : string) : PostgrestError :=
  pg_error "23514"
    ("new row for relation " +:+ dquote t +:+ " violates check constraint " +:+
     dquote constraint).
Definition unique_violation (constraint : string) : PostgrestError :=
  pg_error "23505"
    ("duplicate key value violates unique constraint " +:+ dquote constraint).
Definition numeric_value_out_of_range (n : Z) : PostgrestError :=
  pg_error "22003"
    ("value " +:+ dquote (pretty n) +:+ " is out of range for type integer").
Definition untranslatable_character : PostgrestError :=
  {| message := "unsupported Unicode escape sequence";
     details := "\u0000 cannot be converted to text."; hint := "";
     code := "22P05" |}.
Definition character_not_in_repertoire : PostgrestError :=
  pg_error "22021" ("invalid byte sequence for encoding " +:+ dquote "UTF8").
Definition insufficient_privilege (t : string) : PostgrestError :=
  pg_error "42501"
    ("new row violates row-level security policy for table " +:+ dquote t).
Definition not_single_row : PostgrestError :=
  pg_error "PGRST116" "Cannot coerce the result to a single JSON object".

(** *** Reads *)

Definition column_type (cols : list (string * sqltype)) (c : string)
  : option sqltype :=
  (list_to_map cols : gmap string sqltype) !! c.

Definition has_column (cols : list (string * sqltype)) (c : string) : bool :=
  match column_type cols c with Some _ => true | None => false end.

(** [c ILIKE p] on a row: [NULL] matches nothing. *)
Definition ilike_row (c p : string) (r : Obj) : bool :=
  match prop r c with
  | JsString v => default false (ilike_match p v)
  | _ => false
  end.

Definition apply_filter (t : string) (cols : list (string * sqltype))
    (f : Filter) (rows : list Obj) : PostgrestError + list Obj :=
  match f with
  | Ilike c p =>
      match column_type cols c with
      | None => inl (undefined_column t c)
      | Some text =>
          match tokens (star_to_percent p) with
          | None => inl invalid_escape_sequence
          | Some _ => inr (List.filter (ilike_row c p) rows)
          end
      | Some _ => inl undefined_function
      end
  end.

Fixpoint apply_filters (t : string) (cols : list (string * sqltype))
    (fs : list Filter) (rows : list Obj) : PostgrestError + list Obj :=
  match fs with
  | [] => inr rows
  | f :: fs' =>
      match apply_filter t cols f rows with
      | inl e => inl e
      | inr kept => apply_filters t cols fs' kept
      end
  end.

(** [GET /table?filters&order&limit]: filter, then order, then limit. *)
Definition run_select (q : PostgrestBuilder) (db : Database)
  : PostgrestResponse (list Obj) :=
  match resource db (table q) with
  | None => Failure (undefined_table (table q))
  | Some (cols, rows) =>
      match apply_filters (table q) cols (filters q) rows with
      | inl e => Failure e
      | inr kept =>
          match
            List.find (fun o => negb (has_column cols (order_column o)))
                      (ordering q)
          with
          | Some o => Failure (undefined_column (table q) (order_column o))
          | None =>
              Success (limit_rows (row_limit q) (order_rows (ordering q) kept))
          end
      end
  end.

(** *** Values of the column types

    A [text] holds the characters of Unicode but the one of code zero, in
    UTF-8: one byte for an ASCII character, and for the others a lead byte
    and one to three continuation bytes, without overlong forms, surrogates
    or codes above U+10FFFF. *)

Definition byte_in (lo hi : N) (c : ascii) : bool :=
  ((lo <=? N_of_ascii c) && (N_of_ascii c <=? hi))%N.

Fixpoint utf8 (s : string) : bool :=
  match s with
  | "" => true
  | String a s1 =>
      if byte_in 1 127 a then utf8 s1
      else
        match s1 with
        | "" => false
        | String b s2 =>
            if byte_in 194 223 a then byte_in 128 191 b && utf8 s2
            else
              match s2 with
              | "" => false
              | String c s3 =>
                  if byte_in 224 239 a then
                    (if byte_in 224 224 a then byte_in 160 191 b
                     else if byte_in 237 237 a then byte_in 128 159 b
                     else byte_in 128 191 b)
                    && byte_in 128 191 c && utf8 s3
                  else
                    match s3 with
                    | "" => false
                    | String d s4 =>
                        byte_in 240 244 a
                        && (if byte_in 240 240 a then byte_in 144 191 b
                            else if byte_in 244 244 a then byte_in 128 143 b
                            else byte_in 128 191 b)
                        && byte_in 128 191 c && byte_in 128 191 d && utf8 s4
                    end
              end
        end
  end.

Fixpoint has_nul (s : string) : bool :=
  match s with
  | "" => false
  | String c s' => bool_decide (c = zero) || has_nul s'
  end.

(** What refuses a text that is not one. *)
Definition invalid_text (s : string) : PostgrestError :=
  if has_nul s then untranslatable_character else character_not_in_repertoire.

(** An [integer] is a whole number of 32 bits. *)
Definition int4 (n : Z) : bool :=
  ((-2147483648 <=? n) && (n <=? 2147483647))%Z.

(** *** Writes: [INSERT INTO products] and [INSERT INTO users]

    The gateway writes the [products] table only; the access policies let
    a client insert into [products] and [users].  The body of the request
    is the JSON of the row literal: a property holding [undefined] is left
    out by the serializer, and since the client names every key of the
    literal in the request, a named column without a value is inserted as
    [NULL]; a column the literal does not name takes its default.
    Identifiers and timestamps are opaque texts here, those the defaults
    yield: the input syntax of [uuid] and [timestamptz] is not modelled,
    and no handler sends a value for such a column. *)

Definition and_then {A B} (m : PostgrestError + A)
    (k : A -> PostgrestError + B) : PostgrestError + B :=
  match m with
  | inl e => inl e
  | inr a => k a
  end.

Notation "'let?' x ':=' m 'in' k" := (and_then m (fun x => k))
  (at level 10, x name, m at level 100, k at level 200).

Definition get_text (c : string) (dflt : option string) (payload : Obj)
  : PostgrestError + option string :=
  match payload !! c with
  | None => inr dflt
  | Some (JsString s) =>
      if utf8 s then inr (Some s) else inl (invalid_text s)
  | Some JsNull | Some JsUndefined => inr None
  | Some _ => inl (invalid_text_representation c)
  end.

Definition get_numeric (c : string) (dflt : option Q) (payload : Obj)
  : PostgrestError + option Q :=
  match payload !! c with
  | None => inr dflt
  | Some (JsNumber x) => inr (Some x)
  | Some JsNull | Some JsUndefined => inr None
  | Some _ => inl (invalid_text_representation c)
  end.

(** An [integer] column takes whole numbers only, and those of 32 bits.
    The serializer writes a number of 22 digits or more with an exponent,
    which is not the syntax of an integer. *)
Definition to_integer (c : string) (x : Q) : PostgrestError + Z :=
  let n := Qnum (Qred x) in
  if negb (bool_decide (Qden (Qred x) = 1%positive)) then
    inl (invalid_text_representation c)
  else if negb (Z.abs n <? 10 ^ 21)%Z then
    inl (invalid_text_representation c)
  else if negb (int4 n) then inl (numeric_value_out_of_range n)
  else inr n.

Definition get_integer (c : string) (dflt : option Z) (payload : Obj)
  : PostgrestError + option Z :=
  match payload !! c with
  | None => inr dflt
  | Some (JsNumber x) =>
      match to_integer c x with
      | inl e => inl e
      | inr n => inr (Some n)
      end
  | Some JsNull | Some JsUndefined => inr None
  | Some _ => inl (invalid_text_representation c)
  end.

Definition not_null {A} (t c : string) (v : option A) : PostgrestError + A :=
  match v with
  | Some a => inr a
  | None => inl (not_null_violation t c)
  end.

(** The row an [INSERT] of [payload] would store, or the error that
    refuses it: unknown columns, the input of each column type, [NOT NULL],
    the three [CHECK] constraints, then the primary key. *)
Definition new_product (payload : Obj) (db : Database)
  : PostgrestError + Products.row :=
  match
    List.find (fun k => negb (has_column Products.columns k))
              (map fst (map_to_list payload))
  with
  | Some k => inl (unknown_column "products" k)
  | None =>
      let? id := get_text "product_id"
                   (Some (gen_random_uuid db (tick db))) payload in
      let? nm := get_text "name" None payload in
      let? pr := get_numeric "price" None payload in
      let? rt := get_numeric "rating" None payload in
      let? sq := get_integer "stock_quantity" (Some 0%Z) payload in
      let? ca := get_text "created_at" (Some (now db (tick db))) payload in
      let? ua := get_text "updated_at" (Some (now db (tick db))) payload in
      let? id := not_null "products" "product_id" id in
      let? nm := not_null "products" "name" nm in
      let? pr := not_null "products" "price" pr in
      let? sq := not_null "products" "stock_quantity" sq in
      let r := {| Products.product_id := id; Products.name := nm;
                  Products.price := pr; Products.rating := rt;
                  Products.stock_quantity := sq;
                  Products.created_at := ca; Products.updated_at := ua |} in
      if negb (Products.price_check r) then
        inl (check_violation "products" "products_price_check")
      else if negb (Products.rating_check r) then
        inl (check_violation "products" "products_rating_check")
      else if negb (Products.stock_quantity_check r) then
        inl (check_violation "products" "products_stock_quantity_check")
      else if bool_decide (id ∈ map Products.product_id (products db)) then
        inl (unique_violation "products_pkey")
      else inr r
  end.

(** The state after a statement: the defaults have been drawn. *)
Definition advance (db : Database) : Database :=
  {| products := products db; users := users db;
     sales_summary := sales_summary db;
     purchase_summary := purchase_summary db;
     expense_summary := expense_summary db;
     expense_by_category := expense_by_category db;
     gen_random_uuid := gen_random_uuid db; now := now db;
     tick := Datatypes.S (tick db) |}.

Definition store_product (r : Products.row) (db : Database) : Database :=
  {| products := products db ++ [r]; users := users db;
     sales_summary := sales_summary db;
     purchase_summary := purchase_summary db;
     expense_summary := expense_summary db;
     expense_by_category := expense_by_category db;
     gen_random_uuid := gen_random_uuid db; now := now db;
     tick := tick db |}.

(** The same for [users]: no [CHECK], and two keys, the primary key and
    the [UNIQUE] email. *)
Definition new_user (payload : Obj) (db : Database)
  : PostgrestError + Users.row :=
  match
    List.find (fun k => negb (has_column Users.columns k))
              (map fst (map_to_list payload))
  with
  | Some k => inl (unknown_column "users" k)
  | None =>
      let? id := get_text "user_id"
                   (Some (gen_random_uuid db (tick db))) payload in
      let? nm := get_text "name" None payload in
      let? em := get_text "email" None payload in
      let? ca := get_text "created_at" (Some (now db (tick db))) payload in
      let? id := not_null "users" "user_id" id in
      let? nm := not_null "users" "name" nm in
      let? em := not_null "users" "email" em in
      let r := {| Users.user_id := id; Users.name := nm; Users.email := em;
                  Users.created_at := ca |} in
      if bool_decide (id ∈ map Users.user_id (users db)) then
        inl (unique_violation "users_pkey")
      else if bool_decide (em ∈ map Users.email (users db)) then
        inl (unique_violation "users_email_key")
      else inr r
  end.

Definition store_user (r : Users.row) (db : Database) : Database :=
  {| products := products db; users := users db ++ [r];
     sales_summary := sales_summary db;
     purchase_summary := purchase_summary db;
     expense_summary := expense_summary db;
     expense_by_category := expense_by_category db;
     gen_random_uuid := gen_random_uuid db; now := now db;
     tick := tick db |}.

(** The rows of one [INSERT], in one transaction: the first refusal
    refuses them all. *)
Fixpoint insert_products (payloads : list Obj) (db : Database)
  : PostgrestError + (list Products.row * Database) :=
  match payloads with
  | [] => inr ([], db)
  | payload :: payloads' =>
      let? r := new_product payload db in
      let? rest := insert_products payloads' (advance (store_product r db)) in
      inr (r :: fst rest, snd rest)
  end.

Fixpoint insert_users (payloads : list Obj) (db : Database)
  : PostgrestError + (list Users.row * Database) :=
  match payloads with
  | [] => inr ([], db)
  | payload :: payloads' =>
      let? r := new_user payload db in
      let? rest := insert_users payloads' (advance (store_user r db)) in
      inr (r :: fst rest, snd rest)
  end.

(** [POST /table] with [Prefer: return=representation]: the stored rows
    come back as JSON.  A refused statement leaves the tables as they
    were.  The four summary tables have a policy for [SELECT] only, and an
    insert into them is refused by row-level security. *)
Definition run_insert (q : PostgrestBuilder) (payloads : list Obj)
    (db : Database) : PostgrestResponse (list Obj) * Database :=
  if bool_decide (table q = "products") then
    match insert_products payloads db with
    | inl e => (Failure e, advance db)
    | inr (rows, db') => (Success (map Products.to_json rows), db')
    end
  else if bool_decide (table q = "users") then
    match insert_users payloads db with
    | inl e => (Failure e, advance db)
    | inr (rows, db') => (Success (map Users.to_json rows), db')
    end
  else
    match resource db (table q) with
    | None => (Failure (undefined_table (table q)), db)
    | Some _ => (Failure (insufficient_privilege (table q)), db)
    end.

Definition run (q : PostgrestBuilder)
  : Async Database (PostgrestResponse (list Obj)) :=
  fun db =>
    match inserted q with
    | Some payloads => run_insert q payloads db
    | None => (run_select q db, db)
    end.

(** [.single()]: exactly one row, as an object; a write that does not
    yield exactly one row is rolled back. *)
Definition run_single (q : PostgrestBuilder)
  : Async Database (PostgrestResponse Obj) :=
  fun db =>
    match run q db with
    | (Success [r], db') => (Success r, db')
    | (Success _, _) =>
        (Failure not_single_row,
         match inserted q with Some _ => advance db | None => db end)
    | (Failure e, db') => (Failure e, db')
    end.

#[global] Instance client : Supabase Database :=
  {| await := run; await_single := run_single |}.

End Postgres.

(** *** The sample data of the migration *)

Module Seed.
Import Postgres.

(** The identifiers and timestamps the defaults produced when the
    migration ran; the text of each is immaterial. *)
Definition id (table : string) (n : nat) : string := table +:+ "-" +:+ pretty n.
Definition migrated_at : option string := Some "2025-10-28T21:51:38+00:00".

Definition product (n : nat) (name : string) (price rating : Q) (stock : Z)
  : Products.row :=
  {| Products.product_id := id "products" n; Products.name := name;
     Products.price := price; Products.rating := Some rating;
     Products.stock_quantity := stock;
     Products.created_at := migrated_at; Products.updated_at := migrated_at |}.

Definition products : list Products.row :=
  [product 1 "Laptop" (99999 # 100) (45 # 10) 50;
   product 2 "Wireless Mouse" (2999 # 100) (42 # 10) 200;
   product 3 "Keyboard" (7999 # 100) (47 # 10) 150;
   product 4 "Monitor" (29999 # 100) (46 # 10) 75;
   product 5 "USB Cable" (999 # 100) (40 # 10) 500;
   product 6 "Headphones" (14999 # 100) (48 # 10) 100;
   product 7 "Webcam" (8999 # 100) (43 # 10) 80;
   product 8 "Desk Lamp" (3999 # 100) (41 # 10) 120].

Definition user (n : nat) (name email : string) : Users.row :=
  {| Users.user_id := id "users" n; Users.name := name; Users.email := email;
     Users.created_at := migrated_at |}.

Definition users : list Users.row :=
  [user 1 "John Doe" "john.doe@example.com";
   user 2 "Jane Smith" "jane.smith@example.com";
   user 3 "Bob Johnson" "bob.johnson@example.com";
   user 4 "Alice Williams" "alice.williams@example.com";
   user 5 "Charlie Brown" "charlie.brown@example.com"].

(** [CURRENT_DATE - INTERVAL 'k days'] with the migration run on
    2025-10-28. *)
Definition sale (n : nat) (total change : Q) (date : string)
  : SalesSummary.row :=
  {| SalesSummary.sales_summary_id := id "sales_summary" n;
     SalesSummary.total_value := total;
     SalesSummary.change_percentage := Some change;
     SalesSummary.date := date; SalesSummary.created_at := migrated_at |}.

Definition sales_summary : list SalesSummary.row :=
  [sale 1 (15000 # 1) (125 # 10) "2025-10-22";
   sale 2 (16200 # 1) (80 # 10) "2025-10-23";
   sale 3 (14800 # 1) (-86 # 10) "2025-10-24";
   sale 4 (17500 # 1) (182 # 10) "2025-10-25";
   sale 5 (16900 # 1) (-34 # 10) "2025-10-26";
   sale 6 (18200 # 1) (77 # 10) "2025-10-27";
   sale 7 (19000 # 1) (44 # 10) "2025-10-28"].

Definition purchase (n : nat) (total change : Q) (date : string)
  : PurchaseSummary.row :=
  {| PurchaseSummary.purchase_summary_id := id "purchase_summary" n;
     PurchaseSummary.total_purchased := total;
     PurchaseSummary.change_percentage := Some change;
     PurchaseSummary.date := date;
     PurchaseSummary.created_at := migrated_at |}.

Definition purchase_summary : list PurchaseSummary.row :=
  [purchase 1 (8000 # 1) (150 # 10) "2025-10-22";
   purchase 2 (8500 # 1) (625 # 100) "2025-10-23";
   purchase 3 (7800 # 1) (-82 # 10) "2025-10-24";
   purchase 4 (9200 # 1) (179 # 10) "2025-10-25";
   purchase 5 (8900 # 1) (-33 # 10) "2025-10-26";
   purchase 6 (9500 # 1) (67 # 10) "2025-10-27";
   purchase 7 (10000 # 1) (53 # 10) "2025-10-28"].

Definition expense (n : nat) (total : Q) (date : string)
  : ExpenseSummary.row :=
  {| ExpenseSummary.expense_summary_id := id "expense_summary" n;
     ExpenseSummary.total_expenses := total;
     ExpenseSummary.date := date;
     ExpenseSummary.created_at := migrated_at |}.

Definition expense_summary : list ExpenseSummary.row :=
  [expense 1 (3500 # 1) "2025-10-22";
   expense 2 (3800 # 1) "2025-10-23";
   expense 3 (3200 # 1) "2025-10-24";
   expense 4 (4100 # 1) "2025-10-25";
   expense 5 (3900 # 1) "2025-10-26";
   expense 6 (4200 # 1) "2025-10-27";
   expense 7 (4500 # 1) "2025-10-28"].

Definition category (n : nat) (name : string) (amount : Q)
  : ExpenseByCategory.row :=
  {| ExpenseByCategory.expense_by_category_id := id "expense_by_category" n;
     ExpenseByCategory.category := name;
     ExpenseByCategory.amount := amount;
     ExpenseByCategory.date := "2025-10-28";
     ExpenseByCategory.created_at := migrated_at |}.

Definition expense_by_category : list ExpenseByCategory.row :=
  [category 1 "Office Supplies" (500 # 1);
   category 2 "Salaries" (2500 # 1);
   category 3 "Utilities" (300 # 1);
   category 4 "Marketing" (800 # 1);
   category 5 "Equipment" (400 # 1)].

Definition db : Database :=
  {| Postgres.products := products; Postgres.users := users;
     Postgres.sales_summary := sales_summary;
     Postgres.purchase_summary := purchase_summary;
     Postgres.expense_summary := expense_summary;
     Postgres.expense_by_category := expense_by_category;
     gen_random_uuid := fun n => id "generated" n;
     now := fun n => "2025-10-29T00:00:" +:+ pretty n +:+ "+00:00";
     tick := 0 |}.

End Seed.

(** ** A scripted backend

    A client that answers from a list of recorded responses, one per
    request, whatever the request: it stands for a backend that is down,
    slow to migrate, or returns rows of any shape.  When the script is
    used up the client answers as a lost connection does. *)

Module Scripted.

Definition fetch_failed : PostgrestError :=
  {| message := "TypeError: Failed to fetch"; details := ""; hint := "";
     code := "" |}.

Definition reply : Async (list (PostgrestResponse (list Obj)))
                         (PostgrestResponse (list Obj)) :=
  fun script =>
    match script with
    | r :: script' => (r, script')
    | [] => (Failure fetch_failed, [])
    end.

Definition reply_single : Async (list (PostgrestResponse (list Obj)))
                                (PostgrestResponse Obj) :=
  fun script =>
    match reply script with
    | (Success [r], script') => (Success r, script')
    | (Success _, script') => (Failure Postgres.not_single_row, script')
    | (Failure e, script') => (Failure e, script')
    end.

#[global] Instance client : Supabase (list (PostgrestResponse (list Obj))) :=
  {| await := fun _ => reply; await_single := fun _ => reply_single |}.

End Scripted.

(** ** A recording backend

    A client that answers as the scripted one does and keeps, in the order
    they were sent, the requests it was asked to answer. *)

Module Recorded.

Definition state : Type :=
  (list (PostgrestResponse (list Obj)) * list PostgrestBuilder)%type.

Definition send (q : PostgrestBuilder)
  : Async state (PostgrestResponse (list Obj)) :=
  fun st =>
    (fst (Scripted.reply (fst st)),
     (snd (Scripted.reply (fst st)), (snd st ++ [q])%list)).

Definition send_single (q : PostgrestBuilder)
  : Async state (PostgrestResponse Obj) :=
  fun st =>
    (fst (Scripted.reply_single (fst st)),
     (snd (Scripted.reply_single (fst st)), (snd st ++ [q])%list)).

#[global] Instance client : Supabase state :=
  {| await := send; await_single := send_single |}.

(** The requests a call sends to a backend that answers from [script]. *)
Definition sent {A} (call : Async state A)
    (script : list (PostgrestResponse (list Obj))) : list PostgrestBuilder :=
  snd (snd (call (script, []))).

End Recorded.

(** ** Vocabulary of the properties *)

(** The error a handler meets first: the first failed response in the
    order of the array. *)
Fixpoint first_error {T} (rs : list (PostgrestResponse T))
  : option PostgrestError :=
  match rs with
  | [] => None
  | Failure e :: _ => Some e
  | Success _ :: rs' => first_error rs'
  end.

(** The error envelope of the [catch] blocks, for a backend error. *)
Definition envelope_of (e : PostgrestError) : Obj :=
  obj [("status", JsNumber (inject_Z 500)); ("data", JsString (message e))].

(** The camelCase spelling of a snake_case name: each underscore is
    dropped and the letter after it is capitalised. *)
Definition upper (c : ascii) : ascii :=
  let n := N_of_ascii c in
  if ((97 <=? n) && (n <=? 122))%N then ascii_of_N (n - 32) else c.

Fixpoint camelCase (s : string) : string :=
  match s with
  | "" => ""
  | String "_" (String c s') => String (upper c) (camelCase s')
  | String c s' => String c (camelCase s')
  end.


(** The audit timestamps of a row are not in [vm]. *)
Definition unaudited (vm : Obj) : Prop :=
  vm !! camelCase "created_at" = None /\ vm !! camelCase "updated_at" = None.


(** [hay] contains [needle] as a substring, letter case aside. *)
Definition contains_ci (needle hay : string) : Prop :=
  exists pre mid post,
    hay = pre +:+ mid +:+ post /\
    Postgres.lowercase mid = Postgres.lowercase needle.

(** The characters a [LIKE] operand gives a meaning to: the two
    wildcards, the escape character, and the alias of [%]. *)
Definition is_meta (c : ascii) : bool :=
  bool_decide (c = "%"%char) || bool_decide (c = "_"%char) ||
  bool_decide (c = "\"%char) || bool_decide (c = "*"%char).

(** A search text without any of them. *)
Fixpoint plain (s : string) : bool :=
  match s with
  | "" => true
  | String c s' => negb (is_meta c) && plain s'
  end.

(** A search text without the escape character. *)
Fixpoint unescaped (s : string) : bool :=
  match s with
  | "" => true
  | String c s' => negb (bool_decide (c = "\"%char)) && unescaped s'
  end.

(** What a text without escape characters means as the operand of
    [ilike]: [%] and its alias are any sequence, [_] is any character,
    every other character is itself. *)
Definition token_of (c : ascii) : Postgres.token :=
  if bool_decide (c = "%"%char) || bool_decide (c = "*"%char)
  then Postgres.AnySeq
  else if bool_decide (c = "_"%char) then Postgres.AnyChar
  else Postgres.Lit c.

Fixpoint pattern_of (p : string) : list Postgres.token :=
  match p with
  | "" => []
  | String c p' => token_of c :: pattern_of p'
  end.

(** The products [name ILIKE pattern] keeps. *)
Definition name_ilike (pattern : string) (r : Postgres.Products.row) : bool :=
  default false (Postgres.ilike_match pattern (Postgres.Products.name r)).

(** A search text in which [c] occurs. *)
Fixpoint occurs (c : ascii) (s : string) : bool :=
  match s with
  | "" => false
  | String d s' => bool_decide (c = d) || occurs c s'
  end.

(** A rendering of whole numbers, for the calls on sample data: the
    decimal digits of the integer part. *)
Definition whole_digits (q : Q) : string := pretty (Qnum q `div` Zpos (Qden q))%Z.

(** The columns each mapper reads and the field it writes them to. *)
Definition product_fields : list (string * string) :=
  [("product_id", "productId"); ("name", "name"); ("price", "price");
   ("rating", "rating"); ("stock_quantity", "stockQuantity")].
Definition sales_fields : list (string * string) :=
  [("sales_summary_id", "salesSummaryId"); ("total_value", "totalValue");
   ("change_percentage", "changePercentage"); ("date", "date")].
Definition purchase_fields : list (string * string) :=
  [("purchase_summary_id", "purchaseSummaryId");
   ("total_purchased", "totalPurchased");
   ("change_percentage", "changePercentage"); ("date", "date")].
Definition expense_fields : list (string * string) :=
  [("expense_summary_id", "expenseSummarId");
   ("total_expenses", "totalExpenses"); ("date", "date")].
Definition user_fields : list (string * string) :=
  [("user_id", "userId"); ("name", "name"); ("email", "email")].
Definition category_fields : list (string * string) :=
  [("expense_by_category_id", "expenseByCategorySummaryId");
   ("category", "category"); ("date", "date")].

(** [vm] holds, in the field paired with each column, what reading that
    column of [row] gives. *)
Definition copies (fields : list (string * string)) (row vm : Obj) : Prop :=
  Forall (fun cf => vm !! cf.2 = Some (prop row cf.1)) fields.

(** The envelope of a [catch] block for a thrown value with text [msg]. *)
Definition envelope (msg : string) : Obj :=
  obj [("status", JsNumber (inject_Z 500)); ("data", JsString msg)].


(** Reading the amount of [row] gives nothing to call [toString] on. *)
Definition lacks_amount (row : Obj) : Prop :=
  prop row "amount" = JsUndefined \/ prop row "amount" = JsNull.

(** [rows] are in the order [ORDER BY key] asks for, ascending or
    descending: every row may stay before every row after it. *)
Definition ordered (key : string) (asc : bool) (rows : list Obj) : Prop :=
  StronglySorted
    (fun a b =>
       Postgres.in_order {| order_column := key; ascending := asc |} a b = true)
    rows.

(** The view model each stored row is expected to give, field by field as
    the interfaces of the gateway declare them. *)
Definition productView (r : Postgres.Products.row) : Obj :=
  obj [("productId", JsString (Postgres.Products.product_id r));
       ("name", JsString (Postgres.Products.name r));
       ("price", JsNumber (Postgres.Products.price r));
       ("rating", Postgres.nullable JsNumber (Postgres.Products.rating r));
       ("stockQuantity",
        JsNumber (inject_Z (Postgres.Products.stock_quantity r)))].

Definition userView (r : Postgres.Users.row) : Obj :=
  obj [("userId", JsString (Postgres.Users.user_id r));
       ("name", JsString (Postgres.Users.name r));
       ("email", JsString (Postgres.Users.email r))].

Definition salesSummaryView (r : Postgres.SalesSummary.row) : Obj :=
  obj [("salesSummaryId", JsString (Postgres.SalesSummary.sales_summary_id r));
       ("totalValue", JsNumber (Postgres.SalesSummary.total_value r));
       ("changePercentage",
        Postgres.nullable JsNumber (Postgres.SalesSummary.change_percentage r));
       ("date", JsString (Postgres.SalesSummary.date r))].

Definition purchaseSummaryView (r : Postgres.PurchaseSummary.row) : Obj :=
  obj [("purchaseSummaryId",
        JsString (Postgres.PurchaseSummary.purchase_summary_id r));
       ("totalPurchased", JsNumber (Postgres.PurchaseSummary.total_purchased r));
       ("changePercentage",
        Postgres.nullable JsNumber
          (Postgres.PurchaseSummary.change_percentage r));
       ("date", JsString (Postgres.PurchaseSummary.date r))].

Definition expenseSummaryView (r : Postgres.ExpenseSummary.row) : Obj :=
  obj [("expenseSummarId",
        JsString (Postgres.ExpenseSummary.expense_summary_id r));
       ("totalExpenses", JsNumber (Postgres.ExpenseSummary.total_expenses r));
       ("date", JsString (Postgres.ExpenseSummary.date r))].

Definition expenseByCategoryView (Number_toString : Q -> string)
    (r : Postgres.ExpenseByCategory.row) : Obj :=
  obj [("expenseByCategorySummaryId",
        JsString (Postgres.ExpenseByCategory.expense_by_category_id r));
       ("category", JsString (Postgres.ExpenseByCategory.category r));
       ("amount",
        JsString (Number_toString (Postgres.ExpenseByCategory.amount r)));
       ("date", JsString (Postgres.ExpenseByCategory.date r))].

(** The orders the dashboard asks for, on the stored rows: stock and
    amount from the largest down, dates (ISO texts, compared character by
    character) from the earliest on. *)
Definition by_stock_desc : relation Postgres.Products.row :=
  fun a b =>
    (Postgres.Products.stock_quantity b <= Postgres.Products.stock_quantity a)%Z.
Definition by_amount_desc : relation Postgres.ExpenseByCategory.row :=
  fun a b =>
    (Postgres.ExpenseByCategory.amount b <= Postgres.ExpenseByCategory.amount a)%Q.
Definition by_date {A} (date : A -> string) : relation A :=
  fun a b => String.le (date a) (date b).

(** A text of ASCII characters, each of them one byte of a code from 1
    to 127 (no text of the store holds the character of code zero), and a
    store whose products all have such a name. *)
Fixpoint ascii_text (s : string) : bool :=
  match s with
  | "" => true
  | String c s' => Postgres.byte_in 1 127 c && ascii_text s'
  end.

Definition ascii_names (db : Postgres.Database) : bool :=
  forallb (fun r => ascii_text (Postgres.Products.name r))
          (Postgres.products db).

(** The input of [createProduct] meets what the [products] table asks of
    a row: the name is a text the store can hold, the stock is a whole
    number within the range of [integer], and price, rating and stock pass
    their [CHECK] constraints. *)
Definition whole (q : Q) : bool := bool_decide (Qden (Qred q) = 1%positive).

Definition accepted (np : NewProduct) : bool :=
  Postgres.utf8 (name np) &&
  whole (stockQuantity np) &&
  Postgres.int4 (Qnum (Qred (stockQuantity np))) &&
  Qle_bool 0 (price np) &&
  match rating np with
  | Some x => Qle_bool 0 x && Qle_bool x (inject_Z 5)
  | None => true
  end &&
  (0 <=? Qnum (Qred (stockQuantity np)))%Z.

(** The row the store makes of an accepted input: the identifier and the
    two timestamps come from the defaults of the table. *)
Definition created (db : Postgres.Database) (np : NewProduct)
  : Postgres.Products.row :=
  {| Postgres.Products.product_id :=
       Postgres.gen_random_uuid db (Postgres.tick db);
     Postgres.Products.name := name np;
     Postgres.Products.price := price np;
     Postgres.Products.rating := rating np;
     Postgres.Products.stock_quantity := Qnum (Qred (stockQuantity np));
     Postgres.Products.created_at := Some (Postgres.now db (Postgres.tick db));
     Postgres.Products.updated_at := Some (Postgres.now db (Postgres.tick db)) |}.

(** Two states of the store hold the same rows in every table. *)
Definition same_tables (a b : Postgres.Database) : Prop :=
  Postgres.products a = Postgres.products b /\
  Postgres.users a = Postgres.users b /\
  Postgres.sales_summary a = Postgres.sales_summary b /\
  Postgres.purchase_summary a = Postgres.purchase_summary b /\
  Postgres.expense_summary a = Postgres.expense_summary b /\
  Postgres.expense_by_category a = Postgres.expense_by_category b.

(** ** Sample calls *)

Module Sample.

Definition pen : NewProduct :=
  {| name := "Pen"; price := 15 # 10; rating := None;
     stockQuantity := 10 # 1 |}.

Definition bad : NewProduct :=
  {| name := "Bad"; price := -1 # 1; rating := None;
     stockQuantity := 0 # 1 |}.

(** A product row that lacks its name, price, rating and stock. *)
Definition nameless : Obj := obj [("product_id", JsString "p-1")].

(** An expense-by-category row that lacks its amount. *)
Definition amountless : Obj :=
  obj [("expense_by_category_id", JsString "c-1");
       ("category", JsString "Travel"); ("date", JsString "2025-10-28")].

Definition timeout : PostgrestError :=
  {| message := "canceling statement due to statement timeout";
     details := ""; hint := ""; code := "57014" |}.

(** A store that holds products of the given names and nothing else. *)
Definition shelf (names : list string) : Postgres.Database :=
  {| Postgres.products :=
       imap (fun i name => Seed.product (Datatypes.S i) name (1 # 1) (1 # 1) 1)
            names;
     Postgres.users := []; Postgres.sales_summary := [];
     Postgres.purchase_summary := []; Postgres.expense_summary := [];
     Postgres.expense_by_category := [];
     Postgres.gen_random_uuid := Postgres.gen_random_uuid Seed.db;
     Postgres.now := Postgres.now Seed.db; Postgres.tick := 0 |}.

(** A backend whose third and fifth answers are failures. *)
Definition outage : list (PostgrestResponse (list Obj)) :=
  [Success []; Success []; Failure timeout; Success [];
   Failure Scripted.fetch_failed].

(** What the records a handler returned hold in one field. *)
Definition field (k : string) (r : QueryReturn (list Obj)) : list JsVal :=
  match r with
  | Data vms => map (fun vm => prop vm k) vms
  | Error _ => []
  end.

(** A backend that is down. *)
Definition down : list (PostgrestResponse (list Obj)) :=
  [Failure timeout].

End Sample.

(** ** Cache tags: the endpoint table of [createApi]

    Each read endpoint names the tags its cached result stands under, and
    the mutation names the tags it invalidates. *)

Module Endpoint.
Inductive t :=
| getDashboardMetrics
| getProducts
| createProduct
| getUsers
| getExpensesByCategory.
End Endpoint.

Definition tagTypes : list string :=
  ["DashboardMetrics"; "Products"; "Users"; "Expenses"].

Definition providesTags (e : Endpoint.t) : list string :=
  match e with
  | Endpoint.getDashboardMetrics => ["DashboardMetrics"]
  | Endpoint.getProducts => ["Products"]
  | Endpoint.createProduct => []
  | Endpoint.getUsers => ["Users"]
  | Endpoint.getExpensesByCategory => ["Expenses"]
  end.

Definition invalidatesTags (e : Endpoint.t) : list string :=
  match e with
  | Endpoint.createProduct => ["Products"; "DashboardMetrics"]
  | _ => []
  end.

(** The cached result of [q] is dropped and fetched again after [m]:
    [q] provides a tag that [m] invalidates. *)
Definition refetched_after (m q : Endpoint.t) : bool :=
  existsb (fun tag => bool_decide (tag ∈ providesTags q)) (invalidatesTags m).

(** ** Further vocabulary *)

(** The constraints of the [products] table hold in a state of the store:
    every row passes the three [CHECK]s, and no two rows share the
    primary key. *)
Definition products_valid (db : Postgres.Database) : Prop :=
  Forall (fun r => Postgres.Products.price_check r = true /\
                   Postgres.Products.rating_check r = true /\
                   Postgres.Products.stock_quantity_check r = true)
         (Postgres.products db) /\
  NoDup (map Postgres.Products.product_id (Postgres.products db)).

(** A search text made of the characters that stand for any sequence. *)
Fixpoint only_wild (s : string) : bool :=
  match s with
  | "" => true
  | String c s' =>
      (bool_decide (c = "%"%char) || bool_decide (c = "*"%char)) && only_wild s'
  end.

(** The search text of [n] underscores. *)
Fixpoint underscores (n : nat) : string :=
  match n with
  | O => ""
  | Datatypes.S n' => String "_" (underscores n')
  end.

(** A pattern element with the letter case of its character folded. *)
Definition fold_token (t : Postgres.token) : Postgres.token :=
  match t with
  | Postgres.Lit c => Postgres.Lit (Postgres.lower c)
  | _ => t
  end.


Module Cases.


(** A store whose next generated identifier is already taken. *)
Definition taken : Postgres.Database :=
  {| Postgres.products :=
       [{| Postgres.Products.product_id := "generated-0";
           Postgres.Products.name := "Stapler";
           Postgres.Products.price := 12 # 1;
           Postgres.Products.rating := None;
           Postgres.Products.stock_quantity := 3;
           Postgres.Products.created_at := Seed.migrated_at;
           Postgres.Products.updated_at := Seed.migrated_at |}];
     Postgres.users := Seed.users; Postgres.sales_summary := [];
     Postgres.purchase_summary := []; Postgres.expense_summary := [];
     Postgres.expense_by_category := [];
     Postgres.gen_random_uuid := Postgres.gen_random_uuid Seed.db;
     Postgres.now := Postgres.now Seed.db; Postgres.tick := 0 |}.

(** An input whose stock does not fit an [integer] column, one whose
    name holds the character of code zero, and one whose name has a letter
    outside ASCII. *)
Definition crate : NewProduct :=
  {| name := "Crate"; price := 20 # 1; rating := None;
     stockQuantity := 2147483648 # 1 |}.

Definition broken : NewProduct :=
  {| name := String zero "Pen"; price := 15 # 10; rating := None;
     stockQuantity := 10 # 1 |}.

Definition cahier : NewProduct :=
  {| name := "Cahier d'écolier"; price := 25 # 10; rating := None;
     stockQuantity := 30 # 1 |}.

(** The row of a new user. *)
Definition eve : Obj :=
  obj [("name", JsString "Eve Adams");
       ("email", JsString "eve.adams@example.com")].

End Cases.

(** * Properties *)

(** ** Handlers over any backend *)

Section AnyBackend.

Context {S : Type} `{Supabase S}.
Variable Number_toString : Q -> string.

Lemma Promise_all_length (qs : list PostgrestBuilder) (s : S) :
  length (fst (Promise_all qs s)) = length qs.
Proof.
  revert s. induction qs as [|q qs IH]; intros s; [reflexivity|].
  cbn [Promise_all]. unfold bind at 1.
  destruct (await q s) as [r s1]. unfold bind at 1.
  specialize (IH s1). destruct (Promise_all qs s1) as [rs s2].
  cbn in *. now rewrite IH.
Qed.

Lemma getDashboardMetrics_eq (s : S) :
  fst (getDashboardMetrics Number_toString s) =
  try_catch (dashboard_of Number_toString
               (fst (Promise_all dashboard_queries s))).
Proof.
  unfold getDashboardMetrics, bind.
  now destruct (Promise_all dashboard_queries s).
Qed.

Lemma five_responses (s : S) :
  exists r1 r2 r3 r4 r5,
    fst (Promise_all dashboard_queries s) = [r1; r2; r3; r4; r5].
Proof.
  pose proof (Promise_all_length dashboard_queries s) as Hlen.
  destruct (fst (Promise_all dashboard_queries s))
    as [|r1 [|r2 [|r3 [|r4 [|r5 [|r6 rs]]]]]]; try discriminate Hlen.
  now exists r1, r2, r3, r4, r5.
Qed.

Lemma getProducts_eq (search : option string) (s : S) :
  fst (getProducts search s) =
  try_catch (let* data :=
               throw_if_error (fst (await (getProducts_query search) s)) in
             Returned (map mapProduct data)).
Proof.
  unfold getProducts, bind.
  now destruct (await (getProducts_query search) s).
Qed.

Lemma createProduct_eq (newProduct : NewProduct) (s : S) :
  fst (createProduct newProduct s) =
  try_catch (let* data :=
               throw_if_error
                 (fst (await_single
                         (from "products"
                          |> insert [newProduct_row newProduct] |> select) s)) in
             Returned (mapProduct data)).
Proof.
  unfold createProduct, bind.
  now destruct (await_single _ s).
Qed.

Lemma getUsers_eq (s : S) :
  fst (getUsers s) =
  try_catch (let* data :=
               throw_if_error (fst (await (from "users" |> select) s)) in
             Returned (map mapUser data)).
Proof.
  unfold getUsers, bind.
  now destruct (await _ s).
Qed.

Lemma getExpensesByCategory_eq (s : S) :
  fst (getExpensesByCategory Number_toString s) =
  try_catch (let* data :=
               throw_if_error
                 (fst (await (from "expense_by_category" |> select
                              |> order "amount" false) s)) in
             try_map (mapExpenseByCategory Number_toString) data).
Proof.
  unfold getExpensesByCategory, bind.
  now destruct (await _ s).
Qed.

Lemma getDashboardMetrics_first_error (s : S) (e : PostgrestError) :
  first_error (fst (Promise_all dashboard_queries s)) = Some e ->
  fst (getDashboardMetrics Number_toString s) = Error (envelope_of e).
Proof.
  rewrite getDashboardMetrics_eq.
  destruct (five_responses s) as (r1 & r2 & r3 & r4 & r5 & ->).
  destruct r1; [|now intros [= ->]].
  destruct r2; [|now intros [= ->]].
  destruct r3; [|now intros [= ->]].
  destruct r4; [|now intros [= ->]].
  destruct r5; [|now intros [= ->]].
  discriminate.
Qed.

(** C2. Whatever the five sub-fetches of [getDashboardMetrics] answer, if
    one of them fails the handler returns the error envelope of the first
    failure, in the order of the array, and never a composite object: the
    rows of the fetches that succeeded are dropped. *)
Theorem getDashboardMetrics_all_or_nothing (s : S) :
  let responses := fst (Promise_all dashboard_queries s) in
  (exists r e, r ∈ responses /\ r = Failure e) ->
  exists e,
    first_error responses = Some e /\
    fst (getDashboardMetrics Number_toString s) = Error (envelope_of e) /\
    forall d, fst (getDashboardMetrics Number_toString s) <> Data d.
Proof.
  intros responses (r & e & Hin & ->).
  rewrite getDashboardMetrics_eq. fold responses.
  destruct (five_responses s) as (r1 & r2 & r3 & r4 & r5 & Hrs).
  unfold responses in *. rewrite Hrs in *. clear Hrs.
  destruct r1 as [d1|e1]; [|exists e1; repeat split; [reflexivity..|intros d; discriminate]].
  destruct r2 as [d2|e2]; [|exists e2; repeat split; [reflexivity..|intros d; discriminate]].
  destruct r3 as [d3|e3]; [|exists e3; repeat split; [reflexivity..|intros d; discriminate]].
  destruct r4 as [d4|e4]; [|exists e4; repeat split; [reflexivity..|intros d; discriminate]].
  destruct r5 as [d5|e5]; [|exists e5; repeat split; [reflexivity..|intros d; discriminate]].
  exfalso. repeat (apply elem_of_cons in Hin as [Hin|Hin]; [discriminate|]).
  now apply elem_of_nil in Hin.
Qed.

(** C9. A falsy search argument, the empty string as much as no argument,
    adds no filter: the handler sends the request of the call without
    argument and returns what that call returns. *)
Theorem getProducts_falsy_search (search : option string) (s : S) :
  truthy search = false ->
  filters (getProducts_query search) = [] /\
  getProducts_query search = getProducts_query None /\
  getProducts search s = getProducts None s.
Proof.
  intros Hfalsy.
  assert (getProducts_query search = getProducts_query None) as Hq.
  { unfold getProducts_query. now rewrite Hfalsy. }
  unfold getProducts. rewrite Hq. repeat split.
Qed.

(** *** The mappers *)

Lemma mapProduct_copies (row : Obj) :
  copies product_fields row (mapProduct row).
Proof. repeat constructor. Qed.

Lemma mapSalesSummary_copies (row : Obj) :
  copies sales_fields row (mapSalesSummary row).
Proof. repeat constructor. Qed.

Lemma mapPurchaseSummary_copies (row : Obj) :
  copies purchase_fields row (mapPurchaseSummary row).
Proof. repeat constructor. Qed.

Lemma mapExpenseSummary_copies (row : Obj) :
  copies expense_fields row (mapExpenseSummary row).
Proof. repeat constructor. Qed.

Lemma mapUser_copies (row : Obj) :
  copies user_fields row (mapUser row).
Proof. repeat constructor. Qed.

Lemma mapExpenseByCategory_returned (row vm : Obj) :
  mapExpenseByCategory Number_toString row = Returned vm ->
  copies category_fields row vm /\
  unaudited vm /\
  exists a, toString Number_toString (prop row "amount") = Returned a /\
            vm !! "amount" = Some a.
Proof.
  unfold mapExpenseByCategory.
  destruct (toString Number_toString (prop row "amount")) as [a|t];
    [|discriminate].
  intros [= <-]. split; [repeat constructor|].
  split; [split; reflexivity|]. now exists a.
Qed.


Lemma try_map_threw {A B} (f : A -> Try B) (xs : list A) (x : A) :
  x ∈ xs -> (exists msg, f x = Threw (ThrownTypeError msg)) ->
  (forall x', x' ∈ xs ->
     (exists y, f x' = Returned y) \/ exists msg, f x' = Threw (ThrownTypeError msg)) ->
  exists msg, try_map f xs = Threw (ThrownTypeError msg).
Proof.
  intros Hin Hx Hall. induction xs as [|x' xs IH]; [now apply elem_of_nil in Hin|].
  cbn. destruct (Hall x') as [[y Hy]|[msg Hmsg]]; [apply list_elem_of_here| |].
  - rewrite Hy. cbn. apply elem_of_cons in Hin as [->|Hin].
    + destruct Hx as [msg Hmsg]. congruence.
    + destruct IH as [msg Hmsg]; [assumption| |].
      * intros x'' Hx''. apply Hall. now apply list_elem_of_further.
      * rewrite Hmsg. now exists msg.
  - rewrite Hmsg. now exists msg.
Qed.

Lemma Forall2_map_same {A B} (P : A -> B -> Prop) (f : A -> B) (xs : list A) :
  (forall x, P x (f x)) -> Forall2 P xs (map f xs).
Proof. intros HP. induction xs; cbn; constructor; auto. Qed.

(** C4 (amended). Whatever the handler and whatever the cause of the
    backend failure, the handler returns one and the same envelope: an
    object with the two fields [status] and [data], where [status] is the
    number 500 and [data] is the message of the backend error, unchanged. *)
Theorem backend_failure_envelope (s : S) (e : PostgrestError) :
  (first_error (fst (Promise_all dashboard_queries s)) = Some e ->
   fst (getDashboardMetrics Number_toString s) = Error (envelope_of e)) /\
  (forall search,
     fst (await (getProducts_query search) s) = Failure e ->
     fst (getProducts search s) = Error (envelope_of e)) /\
  (forall newProduct,
     fst (await_single
            (from "products" |> insert [newProduct_row newProduct] |> select) s)
     = Failure e ->
     fst (createProduct newProduct s) = Error (envelope_of e)) /\
  (fst (await (from "users" |> select) s) = Failure e ->
   fst (getUsers s) = Error (envelope_of e)) /\
  (fst (await (from "expense_by_category" |> select |> order "amount" false) s)
   = Failure e ->
   fst (getExpensesByCategory Number_toString s) = Error (envelope_of e)) /\
  envelope_of e !! "status" = Some (JsNumber (inject_Z 500)) /\
  envelope_of e !! "data" = Some (JsString (message e)) /\
  dom (envelope_of e) = {[ "status"; "data" ]}.
Proof.
  split; [apply getDashboardMetrics_first_error|].
  split; [intros search Hr; now rewrite getProducts_eq, Hr|].
  split; [intros newProduct Hr; now rewrite createProduct_eq, Hr|].
  split; [intros Hr; now rewrite getUsers_eq, Hr|].
  split; [intros Hr; now rewrite getExpensesByCategory_eq, Hr|].
  split; [reflexivity|]. split; [reflexivity|].
  unfold envelope_of, obj. cbn [list_to_map foldr curry fst snd].
  rewrite !dom_insert_L, dom_empty_L. set_solver.
Qed.

Lemma copies_missing (fields : list (string * string)) (row vm : Obj)
    (c k : string) :
  copies fields row vm -> (c, k) ∈ fields -> row !! c = None ->
  vm !! k = Some JsUndefined.
Proof.
  intros Hcopies Hin Hnone. unfold copies in Hcopies.
  rewrite Forall_forall in Hcopies. specialize (Hcopies (c, k) Hin).
  cbn in Hcopies. rewrite Hcopies. unfold prop. now rewrite Hnone.
Qed.

Lemma mapExpenseByCategory_cases (row : Obj) :
  (lacks_amount row /\
   exists msg, mapExpenseByCategory Number_toString row
               = Threw (ThrownTypeError msg)) \/
  (~ lacks_amount row /\
   exists vm, mapExpenseByCategory Number_toString row = Returned vm).
Proof.
  unfold mapExpenseByCategory, lacks_amount.
  destruct (prop row "amount") as [| |[|]|q|t]; cbn;
    first [ left; split; [auto|eexists; reflexivity]
          | right; split; [intros [?|?]; discriminate|eexists; reflexivity] ].
Qed.

Lemma try_map_all_returned {A B} (f : A -> Try B) (xs : list A) :
  Forall (fun x => exists y, f x = Returned y) xs ->
  exists ys, try_map f xs = Returned ys.
Proof.
  induction 1 as [|x xs [y Hy] _ [ys Hys]]; cbn; [now eexists|].
  rewrite Hy, Hys. now eexists.
Qed.

Lemma categories_returned (rows : list Obj) :
  Forall (fun row => ~ lacks_amount row) rows ->
  exists vms, try_map (mapExpenseByCategory Number_toString) rows
              = Returned vms.
Proof.
  intros Hall. apply try_map_all_returned.
  eapply Forall_impl; [exact Hall|]. intros row Hrow.
  destruct (mapExpenseByCategory_cases row) as [[Hl _]|[_ Hvm]];
    [contradiction|exact Hvm].
Qed.

Lemma categories_threw (rows : list Obj) :
  Exists lacks_amount rows ->
  exists msg, try_map (mapExpenseByCategory Number_toString) rows
              = Threw (ThrownTypeError msg).
Proof.
  intros Hex. apply Exists_exists in Hex as (row & Hin & Hlacks).
  apply try_map_threw with (x := row).
  - exact Hin.
  - destruct (mapExpenseByCategory_cases row) as [[_ Hmsg]|[Hn _]];
      [exact Hmsg|contradiction].
  - intros row' _.
    destruct (mapExpenseByCategory_cases row') as [[_ Hmsg]|[_ Hvm]]; auto.
Qed.



(** C8 (amended). No mapper checks the row it is given.  Whatever rows
    the backend returns, the handler succeeds with one view model per row,
    and a column the row lacks shows up in the view model as a field
    holding [undefined].  The one exception is the amount of an
    expense-by-category row: when it is missing or null the handler fails
    with the status-500 envelope of a [TypeError]. *)
Theorem missing_fields_propagate (s : S) (rows : list Obj) :
  (forall search,
     fst (await (getProducts_query search) s) = Success rows ->
     fst (getProducts search s) = Data (map mapProduct rows)) /\
  (fst (await (from "users" |> select) s) = Success rows ->
   fst (getUsers s) = Data (map mapUser rows)) /\
  (forall sales purchases expenses categories,
     fst (Promise_all dashboard_queries s)
     = [Success rows; Success sales; Success purchases; Success expenses;
        Success categories] ->
     Forall (fun row => ~ lacks_amount row) categories ->
     exists d,
       fst (getDashboardMetrics Number_toString s) = Data d /\
       popularProducts d = map mapProduct rows /\
       salesSummary d = map mapSalesSummary sales /\
       purchaseSummary d = map mapPurchaseSummary purchases /\
       expenseSummary d = map mapExpenseSummary expenses) /\
  (forall row c k,
     row !! c = None ->
     ((c, k) ∈ product_fields -> mapProduct row !! k = Some JsUndefined) /\
     ((c, k) ∈ user_fields -> mapUser row !! k = Some JsUndefined) /\
     ((c, k) ∈ sales_fields -> mapSalesSummary row !! k = Some JsUndefined) /\
     ((c, k) ∈ purchase_fields ->
      mapPurchaseSummary row !! k = Some JsUndefined) /\
     ((c, k) ∈ expense_fields ->
      mapExpenseSummary row !! k = Some JsUndefined) /\
     ((c, k) ∈ category_fields ->
      forall vm, mapExpenseByCategory Number_toString row = Returned vm ->
                 vm !! k = Some JsUndefined)) /\
  (fst (await (from "expense_by_category" |> select |> order "amount" false) s)
   = Success rows ->
   (Forall (fun row => ~ lacks_amount row) rows ->
    exists vms, fst (getExpensesByCategory Number_toString s) = Data vms) /\
   (Exists lacks_amount rows ->
    exists msg,
      fst (getExpensesByCategory Number_toString s) = Error (envelope msg))) /\
  (forall products sales purchases expenses,
     fst (Promise_all dashboard_queries s)
     = [Success products; Success sales; Success purchases; Success expenses;
        Success rows] ->
     Exists lacks_amount rows ->
     exists msg,
       fst (getDashboardMetrics Number_toString s) = Error (envelope msg)).
Proof.
  split; [intros search Hr; now rewrite getProducts_eq, Hr|].
  split; [intros Hr; now rewrite getUsers_eq, Hr|].
  split.
  { intros sales purchases expenses categories Hrs Hall.
    rewrite getDashboardMetrics_eq, Hrs. cbn.
    destruct (categories_returned categories Hall) as [vms ->].
    cbn. eexists. repeat split. }
  split.
  { intros row c k Hnone. repeat split; intros Hin.
    - eapply copies_missing; eauto using mapProduct_copies.
    - eapply copies_missing; eauto using mapUser_copies.
    - eapply copies_missing; eauto using mapSalesSummary_copies.
    - eapply copies_missing; eauto using mapPurchaseSummary_copies.
    - eapply copies_missing; eauto using mapExpenseSummary_copies.
    - intros vm Hvm. apply mapExpenseByCategory_returned in Hvm as [Hvm _].
      eapply copies_missing; eauto. }
  split.
  { intros Hr. rewrite getExpensesByCategory_eq, Hr. cbn. split.
    - intros Hall. destruct (categories_returned rows Hall) as [vms ->].
      now exists vms.
    - intros Hex. destruct (categories_threw rows Hex) as [msg ->].
      now exists msg. }
  intros products sales purchases expenses Hrs Hex.
  rewrite getDashboardMetrics_eq, Hrs. cbn.
  destruct (categories_threw rows Hex) as [msg ->]. now exists msg.
Qed.

End AnyBackend.

(** ** The reference backend *)

Import Postgres.

(** *** [ORDER BY] *)

Lemma Qle_bool_total (x y : Q) : Qle_bool x y = false -> Qle_bool y x = true.
Proof.
  unfold Qle_bool. intros Hxy. apply Z.leb_gt in Hxy. apply Z.leb_le. lia.
Qed.

Lemma Qle_bool_trans (x y z : Q) :
  Qle_bool x y = true -> Qle_bool y z = true -> Qle_bool x z = true.
Proof. rewrite !Qle_bool_iff. apply Qle_trans. Qed.

Lemma string_leb_trans (x y z : string) :
  String.leb x y = true -> String.leb y z = true -> String.leb x z = true.
Proof.
  intros Hxy Hyz. apply Is_true_true.
  transitivity y; unfold String.le; now apply Is_true_true.
Qed.

Lemma sql_leb_total (a b : JsVal) : sql_leb a b = false -> sql_leb b a = true.
Proof.
  destruct a as [| |[|]|x|x], b as [| |[|]|y|y]; cbn; try done.
  - apply Qle_bool_total.
  - intros Hxy. destruct (String.leb_total x y) as [H|H]; congruence.
Qed.

Lemma sql_leb_trans (a b c : JsVal) :
  sql_leb a b = true -> sql_leb b c = true -> sql_leb a c = true.
Proof.
  destruct a as [| |[|]|x|x], b as [| |[|]|y|y], c as [| |[|]|z|z]; cbn;
    try done.
  - apply Qle_bool_trans.
  - apply string_leb_trans.
Qed.

Section OrderBy.

Variable o : Order.

#[local] Abbreviation before := (fun a b : Obj => in_order o a b = true).

Lemma in_order_total (a b : Obj) : in_order o a b = false -> in_order o b a = true.
Proof. unfold in_order. destruct (ascending o); apply sql_leb_total. Qed.

Lemma in_order_trans : Transitive before.
Proof.
  intros a b c. unfold in_order.
  destruct (ascending o); eauto using sql_leb_trans.
Qed.

Lemma insert_sorted_Permutation (x : Obj) (rows : list Obj) :
  Permutation (insert_sorted o x rows) (x :: rows).
Proof.
  induction rows as [|y rows IH]; cbn; [reflexivity|].
  destruct (in_order o x y); [reflexivity|].
  rewrite IH. apply perm_swap.
Qed.

Lemma sort_by_Permutation (rows : list Obj) :
  Permutation (sort_by o rows) rows.
Proof.
  induction rows as [|x rows IH]; cbn; [reflexivity|].
  fold (sort_by o rows). now rewrite insert_sorted_Permutation, IH.
Qed.

Lemma insert_sorted_HdRel (z x : Obj) (rows : list Obj) :
  before z x -> HdRel before z rows -> HdRel before z (insert_sorted o x rows).
Proof.
  intros Hzx Hz. destruct rows as [|y rows]; cbn; [now constructor|].
  destruct (in_order o x y); constructor; [assumption|].
  now inversion Hz.
Qed.

Lemma insert_sorted_Sorted (x : Obj) (rows : list Obj) :
  Sorted before rows -> Sorted before (insert_sorted o x rows).
Proof.
  induction 1 as [|y rows Hrows IH Hy]; cbn; [repeat constructor|].
  destruct (in_order o x y) eqn:Hxy.
  - repeat constructor; assumption.
  - constructor; [assumption|].
    apply insert_sorted_HdRel; [|assumption].
    now apply in_order_total.
Qed.

Lemma sort_by_Sorted (rows : list Obj) : Sorted before (sort_by o rows).
Proof.
  induction rows as [|x rows IH]; cbn; [constructor|].
  now apply insert_sorted_Sorted.
Qed.

End OrderBy.

Lemma sort_by_ordered (key : string) (asc : bool) (rows : list Obj) :
  ordered key asc
    (sort_by {| order_column := key; ascending := asc |} rows).
Proof.
  unfold ordered.
  apply (Sorted_StronglySorted _ (Transitive0 := in_order_trans _)).
  apply sort_by_Sorted.
Qed.

Lemma StronglySorted_map_inv {A B} (f : A -> B) (R : relation B)
    (S : relation A) (l : list A) :
  (forall a b, R (f a) (f b) -> S a b) ->
  StronglySorted R (map f l) -> StronglySorted S l.
Proof.
  intros HRS. induction l as [|a l IH]; cbn; intros Hsorted; [constructor|].
  apply StronglySorted_inv in Hsorted as [Hl Ha]. constructor; [auto|].
  rewrite Forall_forall in Ha. apply Forall_forall. intros b Hb.
  apply HRS, Ha. now apply list_elem_of_fmap_2.
Qed.

(** The rows an [ORDER BY] returns are the stored rows, rearranged so
    that the order holds between any two of them. *)
Lemma sort_by_rows {A} (f : A -> Obj) (key : string) (asc : bool)
    (R : relation A) (rs : list A) :
  (forall a b,
     in_order {| order_column := key; ascending := asc |} (f a) (f b) = true ->
     R a b) ->
  exists rs',
    sort_by {| order_column := key; ascending := asc |} (map f rs) = map f rs' /\
    Permutation rs' rs /\ StronglySorted R rs'.
Proof.
  intros HR.
  pose proof (sort_by_Permutation {| order_column := key; ascending := asc |}
                (map f rs)) as Hperm.
  apply Permutation_map_inv in Hperm as (rs' & Heq & Hperm).
  exists rs'. split; [exact Heq|]. split; [now symmetry|].
  apply (StronglySorted_map_inv f
           (fun x y =>
              in_order {| order_column := key; ascending := asc |} x y = true)
           R rs' HR).
  rewrite <- Heq. apply sort_by_ordered.
Qed.

(** *** [ILIKE] *)

Lemma matches_AnySeq (ts : list token) (s : string) :
  matches (AnySeq :: ts) s
  = matches ts s ||
    match s with "" => false | String _ s' => matches (AnySeq :: ts) s' end.
Proof. destruct s; reflexivity. Qed.

Lemma string_app_nil (s : string) : "" +:+ s = s.
Proof. reflexivity. Qed.

Lemma string_app_cons (c : ascii) (a b : string) :
  String c a +:+ b = String c (a +:+ b).
Proof. reflexivity. Qed.

(** [%] skips any prefix. *)
Lemma matches_skip (ts : list token) (skipped rest : string) :
  matches ts rest = true -> matches (AnySeq :: ts) (skipped +:+ rest) = true.
Proof.
  intros Hrest. induction skipped as [|c skipped IH].
  - rewrite string_app_nil, matches_AnySeq. now rewrite Hrest.
  - rewrite string_app_cons, matches_AnySeq, IH. apply orb_true_r.
Qed.

Lemma matches_skipped (ts : list token) (s : string) :
  matches (AnySeq :: ts) s = true ->
  exists skipped rest, s = skipped +:+ rest /\ matches ts rest = true.
Proof.
  induction s as [|c s IH]; rewrite matches_AnySeq; intros Hm.
  - exists "", "". rewrite orb_false_r in Hm. now split.
  - apply orb_true_iff in Hm as [Hm|Hm].
    + exists "", (String c s). now split.
    + destruct (IH Hm) as (skipped & rest & -> & Hrest).
      exists (String c skipped), rest. now split.
Qed.

Lemma matches_any (s : string) : matches [AnySeq] s = true.
Proof.
  induction s as [|c s IH]; [reflexivity|].
  rewrite matches_AnySeq, IH. apply orb_true_r.
Qed.

Lemma lowercase_app (a b : string) :
  lowercase (a +:+ b) = lowercase a +:+ lowercase b.
Proof.
  induction a as [|c a IH]; [reflexivity|].
  rewrite string_app_cons. cbn [lowercase].
  now rewrite string_app_cons, IH.
Qed.

Lemma lowercase_nil_inv (s : string) : lowercase s = "" -> s = "".
Proof. destruct s; [reflexivity|discriminate]. Qed.

Lemma token_of_plain (c : ascii) : is_meta c = false -> token_of c = Lit c.
Proof.
  unfold is_meta, token_of. intros Hc.
  repeat (apply orb_false_iff in Hc as [Hc ?]).
  repeat case_bool_decide; try discriminate; try reflexivity.
Qed.

(** A text without wildcards matches what equals it up to letter case,
    and nothing else. *)
Lemma matches_plain (p : string) (ts : list token) (s : string) :
  plain p = true ->
  matches (pattern_of p ++ ts) s = true <->
  exists mid rest,
    s = mid +:+ rest /\ lowercase mid = lowercase p /\ matches ts rest = true.
Proof.
  intros Hp. revert s. induction p as [|c p IH]; intros s.
  - cbn [pattern_of app]. split.
    + intros Hm. exists "", s. now repeat split.
    + intros (mid & rest & -> & Hmid & Hrest).
      apply lowercase_nil_inv in Hmid as ->. exact Hrest.
  - cbn [plain] in Hp. apply andb_true_iff in Hp as [Hc Hp].
    apply negb_true_iff in Hc. cbn [pattern_of app].
    rewrite (token_of_plain c Hc). destruct s as [|d s]; cbn [matches].
    + split; [discriminate|].
      intros (mid & rest & Hs & Hmid & _). destruct mid; discriminate.
    + rewrite andb_true_iff, bool_decide_eq_true, (IH Hp). split.
      * intros (Hcd & mid & rest & -> & Hmid & Hrest).
        exists (String d mid), rest. rewrite string_app_cons.
        cbn [lowercase]. rewrite Hmid, Hcd. now repeat split.
      * intros (mid & rest & Hs & Hmid & Hrest).
        destruct mid as [|d' mid]; [discriminate|].
        rewrite string_app_cons in Hs. cbn [lowercase] in Hmid.
        injection Hs as -> ->. injection Hmid as Hcd Hmid.
        split; [congruence|]. now exists mid, rest.
Qed.

(** An unescaped text, read as a pattern, matches itself. *)
Lemma matches_self (p : string) (ts : list token) (rest : string) :
  matches ts rest = true -> matches (pattern_of p ++ ts) (p +:+ rest) = true.
Proof.
  intros Hrest. induction p as [|c p IH]; [exact Hrest|].
  cbn [pattern_of app]. rewrite string_app_cons. unfold token_of.
  destruct (bool_decide (c = "%"%char) || bool_decide (c = "*"%char)).
  - apply (matches_skip _ (String c "") (p +:+ rest)), IH.
  - destruct (bool_decide (c = "_"%char)); cbn [matches]; [exact IH|].
    rewrite IH. now rewrite bool_decide_eq_true_2.
Qed.

Lemma star_to_percent_cons (c : ascii) (p : string) :
  star_to_percent (String c p)
  = String (if bool_decide (c = "*"%char) then "%"%char else c)
           (star_to_percent p).
Proof. destruct c as [[] [] [] [] [] [] [] []]; reflexivity. Qed.

Lemma tokens_escape (c : ascii) (p : string) :
  tokens (String "\" (String c p)) = cons (Lit c) <$> tokens p.
Proof. reflexivity. Qed.

Lemma tokens_cons (c : ascii) (p : string) :
  c <> "\"%char ->
  tokens (star_to_percent (String c p))
  = cons (token_of c) <$> tokens (star_to_percent p).
Proof.
  destruct c as [[] [] [] [] [] [] [] []]; intros Hc;
    first [reflexivity | now contradiction Hc].
Qed.

Lemma tokens_app (p q : string) :
  unescaped p = true ->
  tokens (star_to_percent (p +:+ q))
  = app (pattern_of p) <$> tokens (star_to_percent q).
Proof.
  intros Hp. induction p as [|c p IH].
  - rewrite string_app_nil. cbn [pattern_of].
    destruct (tokens (star_to_percent q)); reflexivity.
  - cbn [unescaped] in Hp. apply andb_true_iff in Hp as [Hc Hp].
    apply negb_true_iff, bool_decide_eq_false in Hc.
    rewrite string_app_cons, (tokens_cons c _ Hc), (IH Hp).
    cbn [pattern_of]. destruct (tokens (star_to_percent q)); reflexivity.
Qed.

(** The pattern of [getProducts], for a search text without escape
    character. *)
Lemma tokens_wrapped (s : string) :
  unescaped s = true ->
  tokens (star_to_percent ("%" +:+ s +:+ "%"))
  = Some (AnySeq :: pattern_of s ++ [AnySeq]).
Proof.
  intros Hs.
  change ("%" +:+ s +:+ "%") with (String "%" s +:+ "%").
  rewrite tokens_app; [reflexivity|exact Hs].
Qed.

Lemma tokens_percent_end (p : string) :
  (exists ts, tokens (star_to_percent (p +:+ "%")) = Some ts) /\
  (forall c, exists ts, tokens (star_to_percent (String c p +:+ "%")) = Some ts).
Proof.
  induction p as [|d p [IH1 IH2]].
  - split; [now eexists|]. intros c.
    destruct (decide (c = "\"%char)) as [->|Hc]; [now eexists|].
    rewrite string_app_cons, (tokens_cons c _ Hc). now eexists.
  - split; [apply IH2|]. intros c.
    destruct (decide (c = "\"%char)) as [->|Hc].
    + rewrite !string_app_cons.
      change (star_to_percent (String "\" (String d (p +:+ "%"))))
        with (String "\"%char (star_to_percent (String d (p +:+ "%")))).
      rewrite star_to_percent_cons, tokens_escape.
      destruct IH1 as [ts ->]. now eexists.
    + rewrite string_app_cons, (tokens_cons c _ Hc).
      destruct (IH2 d) as [ts ->]. now eexists.
Qed.

(** The pattern of [getProducts] never ends with an escape character. *)
Lemma tokens_wrapped_total (s : string) :
  exists ts, tokens (star_to_percent ("%" +:+ s +:+ "%")) = Some ts.
Proof.
  change ("%" +:+ s +:+ "%") with (String "%" (s +:+ "%")).
  rewrite tokens_cons; [|discriminate].
  destruct (tokens_percent_end s) as [[ts ->] _]. now eexists.
Qed.

(** *** The handlers over the reference backend *)

Section OnPostgres.

Variable Number_toString : Q -> string.

Lemma mapProduct_to_json (r : Products.row) :
  mapProduct (Products.to_json r) = productView r.
Proof. reflexivity. Qed.

Lemma mapUser_to_json (r : Users.row) :
  mapUser (Users.to_json r) = userView r.
Proof. reflexivity. Qed.

Lemma mapSalesSummary_to_json (r : SalesSummary.row) :
  mapSalesSummary (SalesSummary.to_json r) = salesSummaryView r.
Proof. reflexivity. Qed.

Lemma mapPurchaseSummary_to_json (r : PurchaseSummary.row) :
  mapPurchaseSummary (PurchaseSummary.to_json r) = purchaseSummaryView r.
Proof. reflexivity. Qed.

Lemma mapExpenseSummary_to_json (r : ExpenseSummary.row) :
  mapExpenseSummary (ExpenseSummary.to_json r) = expenseSummaryView r.
Proof. reflexivity. Qed.

Lemma mapExpenseByCategory_to_json (r : ExpenseByCategory.row) :
  mapExpenseByCategory Number_toString (ExpenseByCategory.to_json r)
  = Returned (expenseByCategoryView Number_toString r).
Proof. reflexivity. Qed.

Lemma try_map_to_json (rs : list ExpenseByCategory.row) :
  try_map (mapExpenseByCategory Number_toString)
          (map ExpenseByCategory.to_json rs)
  = Returned (map (expenseByCategoryView Number_toString) rs).
Proof.
  induction rs as [|r rs IH]; [reflexivity|].
  cbn [map try_map]. now rewrite mapExpenseByCategory_to_json, IH.
Qed.

Lemma map_map_to_json {A} (f : Obj -> Obj) (to_json : A -> Obj)
    (view : A -> Obj) (rs : list A) :
  (forall r, f (to_json r) = view r) ->
  map f (map to_json rs) = map view rs.
Proof. intros Hview. rewrite map_map. apply map_ext, Hview. Qed.

Lemma Promise_all_dashboard (db : Database) :
  fst (Promise_all dashboard_queries db)
  = [Success (firstn 5
                (sort_by {| order_column := "stock_quantity"; ascending := false |}
                   (map Products.to_json (products db))));
     Success (sort_by {| order_column := "date"; ascending := true |}
                (map SalesSummary.to_json (sales_summary db)));
     Success (sort_by {| order_column := "date"; ascending := true |}
                (map PurchaseSummary.to_json (purchase_summary db)));
     Success (sort_by {| order_column := "date"; ascending := true |}
                (map ExpenseSummary.to_json (expense_summary db)));
     Success (sort_by {| order_column := "amount"; ascending := false |}
                (map ExpenseByCategory.to_json (expense_by_category db)))].
Proof. reflexivity. Qed.

Lemma stock_order (a b : Products.row) :
  in_order {| order_column := "stock_quantity"; ascending := false |}
    (Products.to_json a) (Products.to_json b) = true ->
  by_stock_desc a b.
Proof.
  unfold by_stock_desc.
  change (Qle_bool (inject_Z (Products.stock_quantity b))
                   (inject_Z (Products.stock_quantity a)) = true ->
          (Products.stock_quantity b <= Products.stock_quantity a)%Z).
  rewrite Qle_bool_iff, <- Zle_Qle. auto.
Qed.

Lemma amount_order (a b : ExpenseByCategory.row) :
  in_order {| order_column := "amount"; ascending := false |}
    (ExpenseByCategory.to_json a) (ExpenseByCategory.to_json b) = true ->
  by_amount_desc a b.
Proof.
  unfold by_amount_desc.
  change (Qle_bool (ExpenseByCategory.amount b) (ExpenseByCategory.amount a)
          = true ->
          (ExpenseByCategory.amount b <= ExpenseByCategory.amount a)%Q).
  apply Qle_bool_iff.
Qed.

Lemma sales_date_order (a b : SalesSummary.row) :
  in_order {| order_column := "date"; ascending := true |}
    (SalesSummary.to_json a) (SalesSummary.to_json b) = true ->
  by_date SalesSummary.date a b.
Proof.
  unfold by_date, String.le.
  change (String.leb (SalesSummary.date a) (SalesSummary.date b) = true ->
          String.leb (SalesSummary.date a) (SalesSummary.date b)).
  apply Is_true_true.
Qed.

Lemma purchase_date_order (a b : PurchaseSummary.row) :
  in_order {| order_column := "date"; ascending := true |}
    (PurchaseSummary.to_json a) (PurchaseSummary.to_json b) = true ->
  by_date PurchaseSummary.date a b.
Proof.
  unfold by_date, String.le.
  change (String.leb (PurchaseSummary.date a) (PurchaseSummary.date b) = true ->
          String.leb (PurchaseSummary.date a) (PurchaseSummary.date b)).
  apply Is_true_true.
Qed.

Lemma expense_date_order (a b : ExpenseSummary.row) :
  in_order {| order_column := "date"; ascending := true |}
    (ExpenseSummary.to_json a) (ExpenseSummary.to_json b) = true ->
  by_date ExpenseSummary.date a b.
Proof.
  unfold by_date, String.le.
  change (String.leb (ExpenseSummary.date a) (ExpenseSummary.date b) = true ->
          String.leb (ExpenseSummary.date a) (ExpenseSummary.date b)).
  apply Is_true_true.
Qed.

(** A list of stocks has one arrangement from the largest down. *)
Lemma descending_unique (xs ys : list Z) :
  StronglySorted (fun a b => (b <= a)%Z) xs ->
  StronglySorted (fun a b => (b <= a)%Z) ys ->
  Permutation xs ys -> xs = ys.
Proof.
  apply StronglySorted_unique_strong. intros a b _ _ Hab Hba. lia.
Qed.

Lemma getDashboardMetrics_on_postgres (db : Database) :
  exists ps ss us es cs,
    fst (getDashboardMetrics Number_toString db)
    = Data {| popularProducts := map productView (firstn 5 ps);
              salesSummary := map salesSummaryView ss;
              purchaseSummary := map purchaseSummaryView us;
              expenseSummary := map expenseSummaryView es;
              expenseByCategorySummary :=
                map (expenseByCategoryView Number_toString) cs |} /\
    (Permutation ps (products db) /\ StronglySorted by_stock_desc ps) /\
    (Permutation ss (sales_summary db) /\
     StronglySorted (by_date SalesSummary.date) ss) /\
    (Permutation us (purchase_summary db) /\
     StronglySorted (by_date PurchaseSummary.date) us) /\
    (Permutation es (expense_summary db) /\
     StronglySorted (by_date ExpenseSummary.date) es) /\
    (Permutation cs (expense_by_category db) /\
     StronglySorted by_amount_desc cs).
Proof.
  destruct (sort_by_rows Products.to_json "stock_quantity" false by_stock_desc
              (products db) stock_order) as (ps & Hps & Hpperm & Hpsorted).
  destruct (sort_by_rows SalesSummary.to_json "date" true
              (by_date SalesSummary.date) (sales_summary db) sales_date_order)
    as (ss & Hss & Hsperm & Hssorted).
  destruct (sort_by_rows PurchaseSummary.to_json "date" true
              (by_date PurchaseSummary.date) (purchase_summary db)
              purchase_date_order) as (us & Hus & Huperm & Husorted).
  destruct (sort_by_rows ExpenseSummary.to_json "date" true
              (by_date ExpenseSummary.date) (expense_summary db)
              expense_date_order) as (es & Hes & Heperm & Hesorted).
  destruct (sort_by_rows ExpenseByCategory.to_json "amount" false
              by_amount_desc (expense_by_category db) amount_order)
    as (cs & Hcs & Hcperm & Hcsorted).
  exists ps, ss, us, es, cs.
  split; [|now repeat split].
  rewrite getDashboardMetrics_eq, Promise_all_dashboard.
  rewrite Hps, Hss, Hus, Hes, Hcs.
  cbn [dashboard_of throw_if_error try_bind].
  rewrite try_map_to_json. cbn [try_bind try_catch].
  rewrite <- firstn_map.
  rewrite (map_map_to_json _ _ _ _ mapProduct_to_json).
  rewrite (map_map_to_json _ _ _ _ mapSalesSummary_to_json).
  rewrite (map_map_to_json _ _ _ _ mapPurchaseSummary_to_json).
  rewrite (map_map_to_json _ _ _ _ mapExpenseSummary_to_json).
  now rewrite firstn_map.
Qed.

Lemma getExpensesByCategory_on_postgres (db : Database) :
  exists cs,
    fst (getExpensesByCategory Number_toString db)
    = Data (map (expenseByCategoryView Number_toString) cs) /\
    Permutation cs (expense_by_category db) /\
    StronglySorted by_amount_desc cs.
Proof.
  destruct (sort_by_rows ExpenseByCategory.to_json "amount" false
              by_amount_desc (expense_by_category db) amount_order)
    as (cs & Hcs & Hperm & Hsorted).
  exists cs. split; [|now split].
  rewrite getExpensesByCategory_eq.
  change (fst (await (from "expense_by_category" |> select
                      |> order "amount" false) db))
    with (Success
            (sort_by {| order_column := "amount"; ascending := false |}
               (map ExpenseByCategory.to_json (expense_by_category db)))).
  rewrite Hcs. cbn [throw_if_error try_bind].
  now rewrite try_map_to_json.
Qed.

(** C3. On the reference backend the dashboard always succeeds, and its
    five lists are the stored rows in the order asked for: the products
    from the largest stock down, cut after the fifth; the sales, purchase
    and expense summaries from the earliest date on; the expenses by
    category from the largest amount down.  When the stored stocks are
    500, 200, 150, 120, 100, 80, 75 and 50, in any order, the products
    returned have the stocks 500, 200, 150, 120 and 100. *)
Theorem dashboard_is_ordered (db : Database) :
  exists ps ss us es cs,
    fst (getDashboardMetrics Number_toString db)
    = Data {| popularProducts := map productView (firstn 5 ps);
              salesSummary := map salesSummaryView ss;
              purchaseSummary := map purchaseSummaryView us;
              expenseSummary := map expenseSummaryView es;
              expenseByCategorySummary :=
                map (expenseByCategoryView Number_toString) cs |} /\
    length (map productView (firstn 5 ps)) <= 5 /\
    (Permutation ps (products db) /\ StronglySorted by_stock_desc ps) /\
    (Permutation ss (sales_summary db) /\
     StronglySorted (by_date SalesSummary.date) ss) /\
    (Permutation us (purchase_summary db) /\
     StronglySorted (by_date PurchaseSummary.date) us) /\
    (Permutation es (expense_summary db) /\
     StronglySorted (by_date ExpenseSummary.date) es) /\
    (Permutation cs (expense_by_category db) /\
     StronglySorted by_amount_desc cs) /\
    (Permutation (map Products.stock_quantity (products db))
                 [500; 200; 150; 120; 100; 80; 75; 50]%Z ->
     map Products.stock_quantity (firstn 5 ps) = [500; 200; 150; 120; 100]%Z).
Proof.
  destruct (getDashboardMetrics_on_postgres db)
    as (ps & ss & us & es & cs & Hd & [Hpperm Hpsorted] & Hs & Hu & He & Hc).
  exists ps, ss, us, es, cs.
  split; [exact Hd|].
  split; [rewrite length_map; apply firstn_le_length|].
  do 5 (split; [auto|]).
  intros Hstocks. rewrite <- firstn_map.
  assert (map Products.stock_quantity ps
          = [500; 200; 150; 120; 100; 80; 75; 50]%Z) as ->; [|reflexivity].
  apply descending_unique.
  - apply (StronglySorted_fmap Products.stock_quantity by_stock_desc);
      [auto|exact Hpsorted].
  - repeat constructor; lia.
  - now rewrite Hpperm.
Qed.

Lemma filter_map {A B} (f : A -> B) (keep : B -> bool) (l : list A) :
  List.filter keep (map f l) = map f (List.filter (fun a => keep (f a)) l).
Proof.
  induction l as [|a l IH]; [reflexivity|]. cbn.
  destruct (keep (f a)); cbn; now rewrite IH.
Qed.

Lemma getProducts_all (db : Database) :
  getProducts None db = (Data (map productView (products db)), db).
Proof.
  unfold getProducts, bind.
  change (await (getProducts_query None) db)
    with (Success (map Products.to_json (products db)), db).
  unfold ret. cbn [try_catch try_bind throw_if_error].
  now rewrite (map_map_to_json _ _ _ _ mapProduct_to_json).
Qed.

Lemma getProducts_matching (s : string) (db : Database) :
  truthy (Some s) = true ->
  getProducts (Some s) db
  = (Data (map productView
             (List.filter (name_ilike ("%" +:+ s +:+ "%")) (products db))),
     db).
Proof.
  intros Htruthy. unfold getProducts, getProducts_query, bind.
  rewrite Htruthy. cbn [template].
  destruct (tokens_wrapped_total s) as [ts Hts].
  assert (await (from "products" |> select
                 |> ilike "name" ("%" +:+ s +:+ "%")) db
          = (Success (List.filter (ilike_row "name" ("%" +:+ s +:+ "%"))
                        (map Products.to_json (products db))), db)) as ->.
  { unfold await, client, run. cbn [inserted ilike select from].
    unfold run_select.
    cbn [table filters ordering row_limit ilike select from app].
    change (resource db "products")
      with (Some (Products.columns, map Products.to_json (products db))).
    cbn [apply_filters apply_filter].
    change (column_type Products.columns "name") with (Some text).
    cbn iota. rewrite Hts. reflexivity. }
  unfold ret. cbn [try_catch try_bind throw_if_error].
  rewrite filter_map.
  now rewrite (map_map_to_json _ _ _ _ mapProduct_to_json).
Qed.

Lemma plain_unescaped (s : string) : plain s = true -> unescaped s = true.
Proof.
  induction s as [|c s IH]; [reflexivity|]. cbn [plain unescaped].
  rewrite !andb_true_iff, !negb_true_iff. intros [Hc Hs].
  split; [|auto]. unfold is_meta in Hc.
  repeat (apply orb_false_iff in Hc as [Hc ?]). assumption.
Qed.

Lemma pattern_of_app (a b : string) :
  pattern_of (a +:+ b) = (pattern_of a ++ pattern_of b)%list.
Proof.
  induction a as [|c a IH]; [reflexivity|].
  rewrite string_app_cons. cbn [pattern_of app]. now rewrite IH.
Qed.

Lemma name_ilike_unescaped (s : string) (r : Products.row) :
  unescaped s = true ->
  name_ilike ("%" +:+ s +:+ "%") r
  = matches (AnySeq :: pattern_of s ++ [AnySeq]) (Products.name r).
Proof.
  intros Hs. unfold name_ilike, ilike_match. now rewrite (tokens_wrapped s Hs).
Qed.

(** The filter of a search text without wildcards keeps the names that
    contain it, letter case aside. *)
Lemma name_ilike_plain (s : string) (r : Products.row) :
  plain s = true ->
  name_ilike ("%" +:+ s +:+ "%") r = true <-> contains_ci s (Products.name r).
Proof.
  intros Hs. rewrite (name_ilike_unescaped s r (plain_unescaped s Hs)).
  unfold contains_ci. split.
  - intros Hm. apply matches_skipped in Hm as (pre & rest & Hname & Hm).
    apply (matches_plain s _ _ Hs) in Hm as (mid & post & -> & Hmid & _).
    now exists pre, mid, post.
  - intros (pre & mid & post & -> & Hmid).
    apply matches_skip, (matches_plain s _ _ Hs).
    exists mid, post. repeat split; [exact Hmid|apply matches_any].
Qed.


(** C10 (amended). A truthy search text goes into the pattern as it is,
    between two [%], and the handler returns the products whose name the
    pattern matches.  In a search text without backslash a [%] stands for
    any sequence of characters and a [_] for any single character: a name
    that has the text before the wildcard, then anything (one character
    for [_]), then the text after it, is returned. *)
Theorem search_is_a_pattern (db : Database) (s : string) :
  truthy (Some s) = true ->
  filters (getProducts_query (Some s)) = [Ilike "name" ("%" +:+ s +:+ "%")] /\
  fst (getProducts (Some s) db)
  = Data (map productView
            (List.filter (name_ilike ("%" +:+ s +:+ "%")) (products db))) /\
  (forall a b,
     s = a +:+ "%" +:+ b -> unescaped a = true -> unescaped b = true ->
     forall r pre x post,
       Products.name r = pre +:+ a +:+ x +:+ b +:+ post ->
       name_ilike ("%" +:+ s +:+ "%") r = true) /\
  (forall a b,
     s = a +:+ "_" +:+ b -> unescaped a = true -> unescaped b = true ->
     forall r pre c post,
       Products.name r = pre +:+ a +:+ String c b +:+ post ->
       name_ilike ("%" +:+ s +:+ "%") r = true).
Proof.
  intros Htruthy.
  split; [unfold getProducts_query; now rewrite Htruthy|].
  split; [now rewrite (getProducts_matching s db Htruthy)|].
  split.
  - intros a b -> Ha Hb r pre x post Hname.
    assert (unescaped (a +:+ "%" +:+ b) = true) as Hs.
    { clear -Ha Hb. induction a as [|c a IH]; [exact Hb|].
      cbn [unescaped] in *. apply andb_true_iff in Ha as [Hc Ha].
      rewrite string_app_cons. cbn [unescaped]. rewrite Hc. now apply IH. }
    rewrite (name_ilike_unescaped _ r Hs), Hname, pattern_of_app.
    rewrite <- !app_assoc. apply matches_skip, matches_self.
    change (pattern_of ("%" +:+ b)) with (AnySeq :: pattern_of b).
    cbn [app]. apply matches_skip, matches_self, matches_any.
  - intros a b -> Ha Hb r pre c post Hname.
    assert (unescaped (a +:+ "_" +:+ b) = true) as Hs.
    { clear -Ha Hb. induction a as [|d a IH]; [exact Hb|].
      cbn [unescaped] in *. apply andb_true_iff in Ha as [Hd Ha].
      rewrite string_app_cons. cbn [unescaped]. rewrite Hd. now apply IH. }
    rewrite (name_ilike_unescaped _ r Hs), Hname, pattern_of_app.
    rewrite <- !app_assoc. apply matches_skip, matches_self.
    change (pattern_of ("_" +:+ b)) with (AnyChar :: pattern_of b).
    cbn [app]. rewrite string_app_cons. cbn [matches].
    apply matches_self, matches_any.
Qed.

(** C6. On the reference backend the handler always succeeds; it returns
    the stored expense-by-category rows from the largest amount down, and
    in every record the amount is a text, the rendering of the stored
    number. *)
Theorem getExpensesByCategory_sorted_text (db : Database) :
  exists cs,
    fst (getExpensesByCategory Number_toString db)
    = Data (map (expenseByCategoryView Number_toString) cs) /\
    Permutation cs (expense_by_category db) /\
    StronglySorted by_amount_desc cs /\
    Forall (fun vm => exists t, vm !! "amount" = Some (JsString t))
           (map (expenseByCategoryView Number_toString) cs).
Proof.
  destruct (getExpensesByCategory_on_postgres db)
    as (cs & Hdata & Hperm & Hsorted).
  exists cs. repeat (split; [assumption|]).
  apply Forall_forall. intros vm Hvm.
  apply list_elem_of_fmap in Hvm as (r & -> & _). now eexists.
Qed.

(** *** [createProduct] *)

Lemma new_product_of_input (np : NewProduct) (db : Database) :
  new_product (newProduct_row np) db
  = if utf8 (name np) then
      match to_integer "stock_quantity" (stockQuantity np) with
      | inl e => inl e
      | inr _ =>
          if negb (Products.price_check (created db np)) then
            inl (check_violation "products" "products_price_check")
          else if negb (Products.rating_check (created db np)) then
            inl (check_violation "products" "products_rating_check")
          else if negb (Products.stock_quantity_check (created db np)) then
            inl (check_violation "products" "products_stock_quantity_check")
          else if bool_decide (gen_random_uuid db (tick db)
                               ∈ map Products.product_id (products db)) then
            inl (unique_violation "products_pkey")
          else inr (created db np)
      end
    else inl (invalid_text (name np)).
Proof.
  destruct np as [nm pr [rt|] sq]; cbn [stockQuantity name];
    unfold new_product;
    match goal with
    | |- context [List.find ?f ?l] =>
        change (List.find f l) with (@None string)
    end;
    unfold get_text, get_numeric, get_integer.
  all: repeat match goal with
       | |- context [newProduct_row ?np !! ?k] =>
           let v := eval vm_compute in (newProduct_row np !! k) in
           change (newProduct_row np !! k) with v
       end.
  all: cbn [and_then not_null stockQuantity].
  all: destruct (utf8 nm); cbn [and_then not_null]; [|reflexivity].
  all: unfold to_integer.
  all: destruct (bool_decide (Qden (Qred sq) = 1%positive));
         cbn [negb and_then]; [|reflexivity].
  all: destruct (Z.abs (Qnum (Qred sq)) <? 10 ^ 21)%Z;
         cbn [negb and_then]; [|reflexivity].
  all: destruct (int4 (Qnum (Qred sq))); reflexivity.
Qed.

Lemma to_integer_accepted (c : string) (x : Q) :
  whole x = true -> int4 (Qnum (Qred x)) = true ->
  to_integer c x = inr (Qnum (Qred x)).
Proof.
  unfold whole, to_integer. intros -> Hint4. rewrite Hint4. cbn [negb].
  replace (Z.abs (Qnum (Qred x)) <? 10 ^ 21)%Z with true; [reflexivity|].
  symmetry. apply Z.ltb_lt. unfold int4 in Hint4.
  apply andb_true_iff in Hint4 as [Hlo Hhi].
  apply Z.leb_le in Hlo, Hhi. change (10 ^ 21)%Z with 1000000000000000000000%Z.
  lia.
Qed.

Lemma to_integer_refused (c : string) (x : Q) :
  whole x && int4 (Qnum (Qred x)) = false ->
  exists e, to_integer c x = inl e.
Proof.
  unfold whole, to_integer. intros Hrefused.
  destruct (bool_decide (Qden (Qred x) = 1%positive)); [|now eexists].
  cbn [negb]. destruct (Z.abs (Qnum (Qred x)) <? 10 ^ 21)%Z; [|now eexists].
  cbn [andb negb] in *. rewrite Hrefused. now eexists.
Qed.

Lemma createProduct_on_postgres (np : NewProduct) (db : Database) :
  createProduct np db
  = match new_product (newProduct_row np) db with
    | inl e => (Error (envelope_of e), advance db)
    | inr r => (Data (productView r), advance (store_product r db))
    end.
Proof.
  unfold createProduct, bind, await_single, client, run_single, run.
  cbn [inserted insert select from]. unfold run_insert.
  cbn [table insert select from].
  change (bool_decide ("products" = "products")) with true. cbn iota.
  cbn [insert_products and_then].
  destruct (new_product (newProduct_row np) db) as [e|r]; reflexivity.
Qed.

Lemma accepted_checks (np : NewProduct) (db : Database) :
  accepted np
  = utf8 (name np) &&
    whole (stockQuantity np) &&
    int4 (Qnum (Qred (stockQuantity np))) &&
    Products.price_check (created db np) &&
    Products.rating_check (created db np) &&
    Products.stock_quantity_check (created db np).
Proof. reflexivity. Qed.

(** An accepted input is refused for its key only. *)
Lemma new_product_accepted (np : NewProduct) (db : Database) :
  accepted np = true ->
  new_product (newProduct_row np) db
  = if bool_decide (gen_random_uuid db (tick db)
                    ∈ map Products.product_id (products db))
    then inl (unique_violation "products_pkey")
    else inr (created db np).
Proof.
  rewrite (accepted_checks np db), new_product_of_input.
  rewrite !andb_true_iff.
  intros [[[[[Htext Hwhole] Hint4] Hprice] Hrating] Hstock].
  rewrite Htext, (to_integer_accepted _ _ Hwhole Hint4).
  now rewrite Hprice, Hrating, Hstock.
Qed.

Lemma new_product_refused (np : NewProduct) (db : Database) :
  accepted np = false ->
  exists e, new_product (newProduct_row np) db = inl e.
Proof.
  rewrite (accepted_checks np db), new_product_of_input. intros Hrefused.
  destruct (utf8 (name np)); [|now eexists].
  destruct (whole (stockQuantity np) && int4 (Qnum (Qred (stockQuantity np))))
    eqn:Hinteger.
  - apply andb_true_iff in Hinteger as [Hwhole Hint4].
    rewrite (to_integer_accepted _ _ Hwhole Hint4).
    rewrite Hwhole, Hint4 in Hrefused. cbn [andb] in Hrefused.
    destruct (Products.price_check (created db np)); [|now eexists].
    destruct (Products.rating_check (created db np)); [|now eexists].
    destruct (Products.stock_quantity_check (created db np));
      [discriminate|now eexists].
  - destruct (to_integer_refused "stock_quantity" _ Hinteger) as [e ->].
    now eexists.
Qed.


End OnPostgres.

(** ** The handlers on sample backends *)

Lemma getDashboardMetrics_all_or_nothing_witness :
  Failure Sample.timeout ∈ fst (Promise_all dashboard_queries Sample.outage) /\
  exists e,
    first_error (fst (Promise_all dashboard_queries Sample.outage)) = Some e /\
    fst (getDashboardMetrics whole_digits Sample.outage)
    = Error (envelope_of e) /\
    forall d, fst (getDashboardMetrics whole_digits Sample.outage) <> Data d.
Proof.
  assert (Failure Sample.timeout
          ∈ fst (Promise_all dashboard_queries Sample.outage)) as Hin.
  { vm_compute. do 2 apply list_elem_of_further. apply list_elem_of_here. }
  split; [exact Hin|].
  apply (getDashboardMetrics_all_or_nothing whole_digits Sample.outage).
  exists (Failure Sample.timeout), Sample.timeout. split; [exact Hin|reflexivity].
Defined.

Lemma getProducts_falsy_search_witness :
  truthy (Some "") = false /\
  filters (getProducts_query (Some "")) = [] /\
  getProducts_query (Some "") = getProducts_query None /\
  getProducts (Some "") Seed.db = getProducts None Seed.db.
Proof.
  split; [reflexivity|].
  apply (getProducts_falsy_search (Some "") Seed.db). reflexivity.
Defined.

Lemma backend_failure_envelope_witness :
  fst (getDashboardMetrics whole_digits Sample.down)
  = Error (envelope_of Sample.timeout) /\
  fst (getProducts (Some "pen") Sample.down)
  = Error (envelope_of Sample.timeout) /\
  fst (createProduct Sample.pen Sample.down)
  = Error (envelope_of Sample.timeout) /\
  fst (getUsers Sample.down) = Error (envelope_of Sample.timeout) /\
  fst (getExpensesByCategory whole_digits Sample.down)
  = Error (envelope_of Sample.timeout).
Proof.
  destruct (backend_failure_envelope whole_digits Sample.down Sample.timeout)
    as (Hdashboard & Hproducts & Hcreate & Husers & Hexpenses & _).
  split; [apply Hdashboard; reflexivity|].
  split; [apply Hproducts; reflexivity|].
  split; [apply Hcreate; reflexivity|].
  split; [apply Husers; reflexivity|].
  apply Hexpenses; reflexivity.
Defined.

(** C4 as stated fails on the name of the field: the envelope of a refused
    insert carries the message of the backend under [data], and has no
    field [message]. *)
Lemma envelope_has_no_message_field :
  exists env,
    fst (createProduct Sample.bad Seed.db) = Error env /\
    env !! "status" = Some (JsNumber (inject_Z 500)) /\
    env !! "message" = None /\
    env !! "data"
    = Some (JsString
              (message (Postgres.check_violation "products"
                          "products_price_check"))).
Proof.
  eexists. split; [vm_compute; reflexivity|]. repeat split.
Qed.

Lemma missing_fields_propagate_witness :
  Sample.nameless !! "name" = None /\
  fst (getProducts None [Success [Sample.nameless]])
  = Data [mapProduct Sample.nameless] /\
  mapProduct Sample.nameless !! "name" = Some JsUndefined /\
  lacks_amount Sample.amountless /\
  exists msg,
    fst (getExpensesByCategory whole_digits [Success [Sample.amountless]])
    = Error (envelope msg).
Proof.
  destruct (missing_fields_propagate whole_digits
              [Success [Sample.nameless]] [Sample.nameless])
    as (Hproducts & _ & _ & Hfields & _).
  destruct (missing_fields_propagate whole_digits
              [Success [Sample.amountless]] [Sample.amountless])
    as (_ & _ & _ & _ & Hexpenses & _).
  assert (Sample.nameless !! "name" = None) as Hnone by reflexivity.
  assert (lacks_amount Sample.amountless) as Hlacks by (left; reflexivity).
  split; [exact Hnone|].
  split; [apply (Hproducts None); reflexivity|].
  split.
  { destruct (Hfields Sample.nameless "name" "name" Hnone) as [Hname _].
    apply Hname. unfold product_fields.
    apply list_elem_of_further, list_elem_of_here. }
  split; [exact Hlacks|].
  apply Hexpenses; [reflexivity|]. now constructor.
Defined.

(** C8 as stated fails on a product row without a name: the handler does
    not fail, it returns a view model whose name is [undefined]. *)
Lemma nameless_product_is_returned :
  Sample.nameless !! "name" = None /\
  fst (getProducts None [Success [Sample.nameless]])
  = Data [mapProduct Sample.nameless] /\
  mapProduct Sample.nameless !! "name" = Some JsUndefined.
Proof. repeat split. Qed.



Lemma dashboard_is_ordered_witness :
  Permutation (map Products.stock_quantity (products Seed.db))
              [500; 200; 150; 120; 100; 80; 75; 50]%Z /\
  exists d,
    fst (getDashboardMetrics whole_digits Seed.db) = Data d /\
    map (fun vm => prop vm "stockQuantity") (popularProducts d)
    = map (fun z => JsNumber (inject_Z z)) [500; 200; 150; 120; 100]%Z.
Proof.
  assert (Permutation (map Products.stock_quantity (products Seed.db))
                      [500; 200; 150; 120; 100; 80; 75; 50]%Z) as Hstocks.
  { apply (bool_decide_unpack _). vm_compute. exact I. }
  split; [exact Hstocks|].
  destruct (dashboard_is_ordered whole_digits Seed.db)
    as (ps & ss & us & es & cs & Hd & _ & _ & _ & _ & _ & _ & Htop).
  eexists. split; [exact Hd|].
  cbn [popularProducts]. rewrite map_map, <- (Htop Hstocks), map_map.
  reflexivity.
Defined.


Lemma search_is_a_pattern_witness :
  (truthy (Some "a%c") = true /\
   unescaped "a" = true /\ unescaped "c" = true /\
   name_ilike "%a%c%" (Seed.product 1 "axyzc" (1 # 1) (1 # 1) 1) = true) /\
  (truthy (Some "a_c") = true /\
   name_ilike "%a_c%" (Seed.product 2 "abc" (1 # 1) (1 # 1) 1) = true).
Proof.
  split.
  - repeat (split; [reflexivity|]).
    destruct (search_is_a_pattern (Sample.shelf ["axyzc"; "abc"]) "a%c"
                (eq_refl _)) as (_ & _ & Hany & _).
    apply (Hany "a" "c" (eq_refl _) (eq_refl _) (eq_refl _)
             (Seed.product 1 "axyzc" (1 # 1) (1 # 1) 1) "" "xyz" "").
    reflexivity.
  - split; [reflexivity|].
    destruct (search_is_a_pattern (Sample.shelf ["axyzc"; "abc"]) "a_c"
                (eq_refl _)) as (_ & _ & _ & Hone).
    apply (Hone "a" "c" (eq_refl _) (eq_refl _) (eq_refl _)
             (Seed.product 2 "abc" (1 # 1) (1 # 1) 1) "" "b"%char "").
    reflexivity.
Defined.

(** C10 as stated fails after a backslash: in the search text made of a
    backslash and an underscore the underscore stands for itself.  Of
    three products the handler returns the one whose name holds an
    underscore, and neither the name with a backslash before some
    character nor the other three-letter name. *)
Lemma escaped_underscore_is_literal :
  occurs "_" "\_" = true /\
  "\_" = "\" +:+ "_" +:+ "" /\
  Products.name (Seed.product 1 "\x" (1 # 1) (1 # 1) 1)
  = "" +:+ "\" +:+ String "x" "" +:+ "" /\
  name_ilike ("%" +:+ "\_" +:+ "%") (Seed.product 1 "\x" (1 # 1) (1 # 1) 1)
  = false /\
  fst (getProducts (Some "\_") (Sample.shelf ["\x"; "axb"; "a_b"]))
  = Data [productView (Seed.product 3 "a_b" (1 # 1) (1 # 1) 1)].
Proof.
  do 4 (split; [reflexivity|]).
  rewrite getProducts_matching by reflexivity. reflexivity.
Qed.



(** *** The sample data through the handlers *)

Example search_la :
  Sample.field "name" (fst (getProducts (Some "la") Seed.db))
  = [JsString "Laptop"; JsString "Desk Lamp"].
Proof. vm_compute. reflexivity. Qed.

Example search_wildcard :
  Sample.field "name" (fst (getProducts (Some "_e") Seed.db))
  = [JsString "Wireless Mouse"; JsString "Keyboard"; JsString "USB Cable";
     JsString "Headphones"; JsString "Webcam"; JsString "Desk Lamp"].
Proof. vm_compute. reflexivity. Qed.

Example search_backslash :
  Sample.field "name" (fst (getProducts (Some "\") Seed.db)) = [].
Proof. vm_compute. reflexivity. Qed.

Example expenses_by_category :
  Sample.field "category" (fst (getExpensesByCategory whole_digits Seed.db))
  = [JsString "Salaries"; JsString "Marketing"; JsString "Office Supplies";
     JsString "Equipment"; JsString "Utilities"] /\
  Sample.field "amount" (fst (getExpensesByCategory whole_digits Seed.db))
  = [JsString "2500"; JsString "800"; JsString "500"; JsString "400";
     JsString "300"].
Proof. split; vm_compute; reflexivity. Qed.

Example created_pen :
  match fst (createProduct Sample.pen Seed.db) with
  | Data vm =>
      (prop vm "productId", prop vm "name", prop vm "price", prop vm "rating",
       prop vm "stockQuantity")
      = (JsString "generated-0", JsString "Pen", JsNumber (15 # 10), JsNull,
         JsNumber (10 # 1))
  | Error _ => False
  end.
Proof. vm_compute. reflexivity. Qed.

Example refused_bad :
  match fst (createProduct Sample.bad Seed.db) with
  | Data _ => False
  | Error env =>
      prop env "status" = JsNumber (500 # 1) /\
      prop env "data"
      = JsString (message (check_violation "products" "products_price_check"))
  end.
Proof. vm_compute. split; reflexivity. Qed.

Example refused_crate :
  accepted Cases.crate = false /\
  match fst (createProduct Cases.crate Seed.db) with
  | Data _ => False
  | Error env =>
      prop env "data"
      = JsString (message (numeric_value_out_of_range 2147483648))
  end.
Proof. split; vm_compute; reflexivity. Qed.

Example refused_broken :
  accepted Cases.broken = false /\
  match fst (createProduct Cases.broken Seed.db) with
  | Data _ => False
  | Error env =>
      prop env "data" = JsString (message untranslatable_character)
  end.
Proof. split; vm_compute; reflexivity. Qed.

Example created_cahier :
  accepted Cases.cahier = true /\
  match fst (createProduct Cases.cahier Seed.db) with
  | Data vm => prop vm "name" = JsString "Cahier d'écolier"
  | Error _ => False
  end.
Proof. split; vm_compute; reflexivity. Qed.

(** A text that is not one: an overlong form, a surrogate, a lone
    continuation byte. *)
Example not_utf8 :
  utf8 (String (ascii_of_N 192) (String (ascii_of_N 128) "")) = false /\
  utf8 (String (ascii_of_N 237) (String (ascii_of_N 160)
          (String (ascii_of_N 128) ""))) = false /\
  utf8 (String (ascii_of_N 128) "") = false /\
  utf8 "écolier €5 🖊" = true.
Proof. repeat split. Qed.

(** The access policy lets a client add a user; a second user with the
    same email is refused. *)
Example inserted_user :
  match run (from "users" |> insert [Cases.eve]) Seed.db with
  | (Success [row], db') =>
      prop row "user_id" = JsString "generated-0" /\
      map Users.name (users db')
      = (map Users.name (users Seed.db) ++ ["Eve Adams"])%list /\
      fst (run (from "users" |> insert [Cases.eve]) db')
      = Failure (unique_violation "users_email_key")
  | _ => False
  end.
Proof. vm_compute. repeat split. Qed.

Example refused_summary :
  run (from "sales_summary" |> insert [obj [("date", JsString "2025-10-29")]])
      Seed.db
  = (Failure (insufficient_privilege "sales_summary"), Seed.db).
Proof. reflexivity. Qed.

(** * Further properties of the handlers *)

Section Reads.

Variable Number_toString : Q -> string.

Lemma filter_all {A} (keep : A -> bool) (l : list A) :
  (forall x, keep x = true) -> List.filter keep l = l.
Proof.
  intros Hkeep. induction l as [|x l IH]; [reflexivity|].
  cbn. now rewrite Hkeep, IH.
Qed.

Lemma filter_sublist {A} (keep : A -> bool) (l : list A) :
  sublist (List.filter keep l) l.
Proof.
  induction l as [|x l IH]; cbn; [constructor|].
  destruct (keep x); now constructor.
Qed.

Lemma filter_narrows {A} (f g : A -> bool) (l : list A) :
  (forall x, f x = true -> g x = true) ->
  sublist (List.filter f l) (List.filter g l).
Proof.
  intros Hfg. induction l as [|x l IH]; cbn; [constructor|].
  destruct (f x) eqn:Hf.
  - rewrite (Hfg x Hf). now constructor.
  - destruct (g x); [now constructor|exact IH].
Qed.

Lemma map_sublist {A B} (f : A -> B) (l k : list A) :
  sublist l k -> sublist (map f l) (map f k).
Proof. induction 1; cbn; now constructor. Qed.

Lemma name_ilike_empty (r : Products.row) :
  name_ilike ("%" +:+ "" +:+ "%") r = true.
Proof.
  unfold name_ilike, ilike_match. cbn [tokens star_to_percent fmap option_fmap
                                       option_map default String.append].
  apply (matches_skip [AnySeq] "" (Products.name r)), matches_any.
Qed.

(** The handler with any search text, empty or not: the filter of the
    pattern over the table, and the store as it was. *)
Lemma getProducts_filter (s : string) (db : Database) :
  getProducts (Some s) db
  = (Data (map productView
             (List.filter (name_ilike ("%" +:+ s +:+ "%")) (products db))),
     db).
Proof.
  destruct (truthy (Some s)) eqn:Htruthy.
  - now apply getProducts_matching.
  - destruct s as [|c s]; [|discriminate].
    change (getProducts (Some "") db) with (getProducts None db).
    rewrite getProducts_all.
    now rewrite (filter_all _ _ name_ilike_empty).
Qed.

Lemma getUsers_on_postgres (db : Database) :
  getUsers db = (Data (map userView (users db)), db).
Proof.
  unfold getUsers, bind.
  change (await (from "users" |> select) db)
    with (Success (map Users.to_json (users db)), db).
  unfold ret. cbn [try_catch try_bind throw_if_error].
  now rewrite (map_map_to_json _ _ _ _ mapUser_to_json).
Qed.

Lemma getDashboardMetrics_store (db : Database) :
  snd (getDashboardMetrics Number_toString db) = db.
Proof. reflexivity. Qed.

Lemma getExpensesByCategory_store (db : Database) :
  snd (getExpensesByCategory Number_toString db) = db.
Proof. reflexivity. Qed.

(** X1. The four read handlers only read.  Every request they send,
    whatever the backend answers, is a plain select, without rows to
    insert: one request each for [getProducts], [getUsers] and
    [getExpensesByCategory], five for [getDashboardMetrics].  On the
    reference backend the store after the call is the store before it,
    whatever the search text. *)
Theorem read_handlers_only_read (db : Database) (search : option string)
    (script : list (PostgrestResponse (list Obj))) :
  (Forall (fun q => inserted q = None)
          (Recorded.sent (getProducts search) script
           ++ Recorded.sent getUsers script
           ++ Recorded.sent (getDashboardMetrics Number_toString) script
           ++ Recorded.sent (getExpensesByCategory Number_toString) script) /\
   length (Recorded.sent (getProducts search) script) = 1 /\
   length (Recorded.sent getUsers script) = 1 /\
   length (Recorded.sent (getDashboardMetrics Number_toString) script) = 5 /\
   length (Recorded.sent (getExpensesByCategory Number_toString) script) = 1) /\
  snd (getProducts search db) = db /\
  snd (getUsers db) = db /\
  snd (getDashboardMetrics Number_toString db) = db /\
  snd (getExpensesByCategory Number_toString db) = db.
Proof.
  split.
  { change (Recorded.sent (getProducts search) script)
      with [getProducts_query search].
    split; [|now repeat split].
    constructor; [|repeat constructor].
    unfold getProducts_query. now destruct (truthy search). }
  split.
  { destruct search as [s|]; [now rewrite getProducts_filter|].
    now rewrite getProducts_all. }
  split; [now rewrite getUsers_on_postgres|].
  split; [apply getDashboardMetrics_store|apply getExpensesByCategory_store].
Qed.

(** X2. [getUsers] on the reference backend never fails: it returns one
    record per stored user, in the order of the table, each with the
    identifier, name and email of its row and nothing else. *)
Theorem getUsers_returns_every_user (db : Database) :
  exists vms,
    fst (getUsers db) = Data vms /\
    Forall2 (fun r vm =>
               vm !! "userId" = Some (JsString (Users.user_id r)) /\
               vm !! "name" = Some (JsString (Users.name r)) /\
               vm !! "email" = Some (JsString (Users.email r)) /\
               dom vm = {[ "userId"; "name"; "email" ]})
            (users db) vms.
Proof.
  rewrite getUsers_on_postgres. eexists. split; [reflexivity|].
  apply Forall2_map_same. intros r.
  split; [reflexivity|]. split; [reflexivity|]. split; [reflexivity|].
  unfold userView, obj. cbn [list_to_map foldr curry fst snd].
  rewrite !dom_insert_L, dom_empty_L. set_solver.
Qed.

(** X3. Whatever the search text, wildcards and backslashes included,
    [getProducts] succeeds on the reference backend, and what it returns
    is a sub-list of what the call without argument returns: the same
    records in the same order, some left out, none added. *)
Theorem search_returns_a_sublist (db : Database) (s : string) :
  exists found every,
    fst (getProducts (Some s) db) = Data found /\
    fst (getProducts None db) = Data every /\
    sublist found every.
Proof.
  rewrite getProducts_filter, getProducts_all.
  eexists. eexists. split; [reflexivity|]. split; [reflexivity|].
  apply map_sublist, filter_sublist.
Qed.

End Reads.

(** ** The search text of [getProducts] *)

Section Search.

Lemma lower_idem (c : ascii) : lower (lower c) = lower c.
Proof. destruct c as [[] [] [] [] [] [] [] []]; reflexivity. Qed.

Lemma lower_meta (m : ascii) : is_meta m = true -> lower m = m.
Proof.
  unfold is_meta. rewrite !orb_true_iff, !bool_decide_eq_true.
  intros [[[->| ->]| ->]| ->]; reflexivity.
Qed.

Lemma lower_meta_inv (c m : ascii) : is_meta m = true -> lower c = m -> c = m.
Proof.
  intros Hm Hc.
  destruct c as [[] [] [] [] [] [] [] []]; vm_compute in Hc; subst m;
    first [reflexivity | vm_compute in Hm; discriminate Hm].
Qed.

(** Two characters equal up to letter case are the same wildcard or
    escape character, or neither is one. *)
Lemma lower_same_meta (c1 c2 m : ascii) :
  is_meta m = true -> lower c1 = lower c2 -> c1 = m <-> c2 = m.
Proof.
  intros Hm Hc. split; intros ->.
  - apply (lower_meta_inv c2 m Hm). now rewrite <- Hc, (lower_meta m Hm).
  - apply (lower_meta_inv c1 m Hm). now rewrite Hc, (lower_meta m Hm).
Qed.

Lemma token_of_fold (c1 c2 : ascii) :
  lower c1 = lower c2 ->
  fold_token (token_of c1) = fold_token (token_of c2).
Proof.
  intros Hc.
  pose proof (lower_same_meta c1 c2 "%" (eq_refl _) Hc) as Hpercent.
  pose proof (lower_same_meta c1 c2 "*" (eq_refl _) Hc) as Hstar.
  pose proof (lower_same_meta c1 c2 "_" (eq_refl _) Hc) as Hunder.
  unfold token_of.
  repeat case_bool_decide; cbn [orb fold_token]; try tauto; congruence.
Qed.

Lemma star_backslash (p : string) :
  star_to_percent (String "\" p) = String "\" (star_to_percent p).
Proof. reflexivity. Qed.

Lemma escaped_fold (d1 d2 : ascii) :
  lower d1 = lower d2 ->
  lower (if bool_decide (d1 = "*"%char) then "%"%char else d1)
  = lower (if bool_decide (d2 = "*"%char) then "%"%char else d2).
Proof.
  intros Hd.
  pose proof (lower_same_meta d1 d2 "*" (eq_refl _) Hd) as Hstar.
  repeat case_bool_decide; try tauto; congruence.
Qed.

Lemma lowercase_cons_inv (c : ascii) (p q : string) :
  lowercase (String c p) = lowercase q ->
  exists d q', q = String d q' /\ lower c = lower d /\
               lowercase p = lowercase q'.
Proof.
  destruct q as [|d q']; [discriminate|]. cbn [lowercase].
  intros [= Hc Hp]. now exists d, q'.
Qed.

(** Patterns equal up to letter case read as the same pattern, up to the
    letter case of their literal characters. *)
Lemma tokens_fold (p1 : string) :
  (forall p2,
     lowercase p1 = lowercase p2 ->
     fmap (map fold_token) (tokens (star_to_percent p1))
     = fmap (map fold_token) (tokens (star_to_percent p2))) /\
  (forall c p2,
     lowercase (String c p1) = lowercase p2 ->
     fmap (map fold_token) (tokens (star_to_percent (String c p1)))
     = fmap (map fold_token) (tokens (star_to_percent p2))).
Proof.
  induction p1 as [|d p1 [IH1 IH2]].
  - split.
    + intros p2 Hp. symmetry in Hp. now apply lowercase_nil_inv in Hp as ->.
    + intros c p2 Hp.
      apply lowercase_cons_inv in Hp as (c2 & q & -> & Hc & Hq).
      symmetry in Hq. apply lowercase_nil_inv in Hq as ->.
      destruct (decide (c = "\"%char)) as [->|Hne].
      * assert (c2 = "\"%char) as ->; [|reflexivity].
        now apply (lower_same_meta "\" c2 "\" (eq_refl _) Hc).
      * assert (c2 <> "\"%char) as Hne2.
        { intros ->. apply Hne.
          now apply (lower_same_meta c "\" "\" (eq_refl _) Hc). }
        rewrite (tokens_cons c _ Hne), (tokens_cons c2 _ Hne2).
        cbn. now rewrite (token_of_fold c c2 Hc).
  - split; [exact (IH2 d)|]. intros c p2 Hp.
    apply lowercase_cons_inv in Hp as (c2 & q & -> & Hc & Hq).
    destruct (decide (c = "\"%char)) as [->|Hne].
    + assert (c2 = "\"%char) as ->.
      { now apply (lower_same_meta "\" c2 "\" (eq_refl _) Hc). }
      apply lowercase_cons_inv in Hq as (d2 & q' & -> & Hd & Hq').
      rewrite !star_backslash, !star_to_percent_cons, !tokens_escape.
      specialize (IH1 q' Hq').
      destruct (tokens (star_to_percent p1)) as [ts1|],
               (tokens (star_to_percent q')) as [ts2|];
        cbn in IH1 |- *; try congruence.
      injection IH1 as IH1. now rewrite IH1, (escaped_fold d d2 Hd).
    + assert (c2 <> "\"%char) as Hne2.
      { intros ->. apply Hne.
        now apply (lower_same_meta c "\" "\" (eq_refl _) Hc). }
      rewrite (tokens_cons c _ Hne), (tokens_cons c2 _ Hne2).
      specialize (IH2 d q Hq).
      destruct (tokens (star_to_percent (String d p1))) as [ts1|],
               (tokens (star_to_percent q)) as [ts2|];
        cbn in IH2 |- *; try congruence.
      injection IH2 as IH2. now rewrite IH2, (token_of_fold c c2 Hc).
Qed.

Lemma matches_fold (ts : list token) (v : string) :
  matches (map fold_token ts) v = matches ts v.
Proof.
  revert v. induction ts as [|[| |c] ts IH]; intros v; [reflexivity| | |].
  - cbn [map fold_token]. induction v as [|d v IHv];
      rewrite (matches_AnySeq (map fold_token ts)), (matches_AnySeq ts), IH;
      [reflexivity|now rewrite IHv].
  - destruct v; cbn; [reflexivity|apply IH].
  - destruct v; cbn [map fold_token matches]; [reflexivity|].
    now rewrite lower_idem, IH.
Qed.

Lemma name_ilike_fold (s1 s2 : string) (r : Products.row) :
  lowercase s1 = lowercase s2 ->
  name_ilike ("%" +:+ s1 +:+ "%") r = name_ilike ("%" +:+ s2 +:+ "%") r.
Proof.
  intros Hs.
  assert (lowercase ("%" +:+ s1 +:+ "%") = lowercase ("%" +:+ s2 +:+ "%"))
    as Hp by (rewrite !lowercase_app; now rewrite Hs).
  apply (proj1 (tokens_fold _)) in Hp.
  unfold name_ilike, ilike_match.
  destruct (tokens_wrapped_total s1) as [ts1 Hts1].
  destruct (tokens_wrapped_total s2) as [ts2 Hts2].
  rewrite Hts1, Hts2 in *. cbn in Hp |- *. injection Hp as Hp.
  now rewrite <- (matches_fold ts1), Hp, matches_fold.
Qed.

(** X4. The letter case of the search text does not matter: two search
    texts that differ only in the case of letters, wildcards and escapes
    included, make [getProducts] return the same result. *)
Theorem search_ignores_case (db : Database) (s1 s2 : string) :
  lowercase s1 = lowercase s2 ->
  fst (getProducts (Some s1) db) = fst (getProducts (Some s2) db).
Proof.
  intros Hs. rewrite !getProducts_filter. cbn [fst]. do 2 f_equal.
  apply filter_ext. intros r. now apply name_ilike_fold.
Qed.

End Search.

Section SearchTexts.

Lemma string_app_assoc (a b c : string) : (a +:+ b) +:+ c = a +:+ (b +:+ c).
Proof.
  induction a as [|x a IH]; [reflexivity|].
  now rewrite !string_app_cons, IH.
Qed.

Lemma plain_app (a b : string) : plain (a +:+ b) = plain a && plain b.
Proof.
  induction a as [|x a IH]; [reflexivity|].
  rewrite string_app_cons. cbn [plain]. now rewrite IH, andb_assoc.
Qed.

Lemma lowercase_app_inv (mid x y : string) :
  lowercase mid = x +:+ y ->
  exists m1 m2, mid = m1 +:+ m2 /\ lowercase m1 = x /\ lowercase m2 = y.
Proof.
  revert mid. induction x as [|c x IH]; intros mid Hmid.
  - exists "", mid. now repeat split.
  - destruct mid as [|d mid]; [discriminate|].
    rewrite string_app_cons in Hmid. cbn [lowercase] in Hmid.
    injection Hmid as Hd Hmid.
    destruct (IH mid Hmid) as (m1 & m2 & -> & Hm1 & Hm2).
    exists (String d m1), m2. cbn [lowercase]. now rewrite Hd, Hm1.
Qed.

(** A name that contains a text contains every part of the text. *)
Lemma contains_ci_part (pre s post v : string) :
  contains_ci (pre +:+ s +:+ post) v -> contains_ci s v.
Proof.
  intros (a & mid & b & -> & Hmid).
  rewrite !lowercase_app in Hmid.
  apply lowercase_app_inv in Hmid as (m1 & m23 & -> & _ & Hm23).
  apply lowercase_app_inv in Hm23 as (m2 & m3 & -> & Hm2 & _).
  exists (a +:+ m1), m2, (m3 +:+ b). split; [|exact Hm2].
  now rewrite !string_app_assoc.
Qed.

(** X5. Narrowing the search narrows the result.  For a search text
    without wildcard or escape characters, the products [getProducts]
    returns are among those it returns for any part of the text, in the
    same order. *)
Theorem longer_search_returns_less (db : Database) (pre s post : string) :
  plain (pre +:+ s +:+ post) = true ->
  exists narrow wide,
    fst (getProducts (Some (pre +:+ s +:+ post)) db) = Data narrow /\
    fst (getProducts (Some s) db) = Data wide /\
    sublist narrow wide.
Proof.
  intros Hplain. rewrite !getProducts_filter.
  eexists. eexists. split; [reflexivity|]. split; [reflexivity|].
  assert (plain s = true) as Hs.
  { rewrite !plain_app, !andb_true_iff in Hplain. tauto. }
  apply map_sublist, filter_narrows. intros r Hr.
  apply (name_ilike_plain s r Hs).
  apply (name_ilike_plain _ r Hplain) in Hr.
  now apply (contains_ci_part pre s post).
Qed.

Lemma only_wild_unescaped (s : string) :
  only_wild s = true -> unescaped s = true.
Proof.
  induction s as [|c s IH]; [reflexivity|]. cbn [only_wild unescaped].
  rewrite !andb_true_iff, orb_true_iff, !bool_decide_eq_true, negb_true_iff,
    bool_decide_eq_false.
  intros [[-> | ->] Hs]; (split; [discriminate|auto]).
Qed.

Lemma matches_only_wild (s : string) (ts : list token) (v : string) :
  only_wild s = true -> matches ts v = true ->
  matches (pattern_of s ++ ts) v = true.
Proof.
  intros Hs Hts. induction s as [|c s IH]; [exact Hts|].
  cbn [only_wild] in Hs. apply andb_true_iff in Hs as [Hc Hs].
  cbn [pattern_of app]. unfold token_of. rewrite Hc.
  apply (matches_skip _ "" v), IH, Hs.
Qed.

(** X6. A search text made only of [%] and [*] filters nothing:
    [getProducts] returns what it returns without argument. *)
Theorem wildcard_search_returns_all (db : Database) (s : string) :
  only_wild s = true ->
  getProducts (Some s) db = getProducts None db.
Proof.
  intros Hs. rewrite getProducts_filter, getProducts_all. do 3 f_equal.
  apply filter_all. intros r.
  rewrite (name_ilike_unescaped s r (only_wild_unescaped s Hs)).
  apply (matches_skip _ "" (Products.name r)).
  apply (matches_only_wild s _ _ Hs), matches_any.
Qed.

Lemma unescaped_underscores (n : nat) : unescaped (underscores n) = true.
Proof. induction n as [|n IH]; [reflexivity|exact IH]. Qed.

Lemma matches_any_chars (n : nat) (v : string) :
  matches (pattern_of (underscores n) ++ [AnySeq]) v
  = (n <=? String.length v)%nat.
Proof.
  revert v. induction n as [|n IH]; intros v; [apply matches_any|].
  destruct v as [|c v]; [reflexivity|]. apply IH.
Qed.

Lemma matches_at_least (n : nat) (v : string) :
  matches (AnySeq :: pattern_of (underscores n) ++ [AnySeq]) v
  = (n <=? String.length v)%nat.
Proof.
  induction v as [|c v IH]; rewrite matches_AnySeq, matches_any_chars.
  - apply orb_false_r.
  - rewrite IH. cbn [String.length].
    destruct (Nat.leb_spec n (Datatypes.S (String.length v))),
             (Nat.leb_spec n (String.length v)); try reflexivity; lia.
Qed.

(** X7. The underscore counts characters: over products whose names are
    of ASCII characters, for the search text of [n] underscores
    [getProducts] returns exactly the products whose name has at least [n]
    characters. *)
Theorem underscores_search_by_length (db : Database) (n : nat) :
  ascii_names db = true ->
  fst (getProducts (Some (underscores n)) db)
  = Data (map productView
            (List.filter
               (fun r => (n <=? String.length (Products.name r))%nat)
               (products db))).
Proof.
  intros _. rewrite getProducts_filter. cbn [fst]. do 2 f_equal.
  apply filter_ext. intros r.
  rewrite (name_ilike_unescaped _ r (unescaped_underscores n)).
  apply matches_at_least.
Qed.

End SearchTexts.

(** ** The dashboard beside the other handlers *)

Section Dashboard.

Variable Number_toString : Q -> string.

(** X8. The popular products of the dashboard are the top of the table
    by stock: exactly five of the stored products, or all of them when
    fewer are stored, and no product left out has a larger stock than a
    product returned. *)
Theorem popular_products_are_the_top (db : Database) :
  exists d ps,
    fst (getDashboardMetrics Number_toString db) = Data d /\
    Permutation ps (products db) /\
    popularProducts d = map productView (firstn 5 ps) /\
    length (popularProducts d) = Nat.min 5 (length (products db)) /\
    forall p q,
      p ∈ firstn 5 ps -> q ∈ skipn 5 ps ->
      (Products.stock_quantity q <= Products.stock_quantity p)%Z.
Proof.
  destruct (getDashboardMetrics_on_postgres Number_toString db)
    as (ps & ss & us & es & cs & Hd & [Hperm Hsorted] & _).
  eexists. exists ps. split; [exact Hd|]. split; [exact Hperm|].
  split; [reflexivity|]. split.
  - cbn [popularProducts]. now rewrite length_map, length_firstn, Hperm.
  - intros p q Hp Hq. rewrite <- (firstn_skipn 5 ps) in Hsorted.
    exact (StronglySorted_app_1_elem_of _ _ _ _ _ Hsorted Hp Hq).
Qed.

Lemma elem_of_sort_by (o : Order) (row : Obj) (rows : list Obj) :
  row ∈ sort_by o rows -> row ∈ rows.
Proof. intros Hin. now rewrite <- (sort_by_Permutation o rows). Qed.

(** X9. The dashboard agrees with the handlers it overlaps with: its
    expense-by-category list is the list [getExpensesByCategory] returns,
    and each of its popular products is among the products [getProducts]
    returns without argument. *)
Theorem dashboard_agrees_with_handlers (db : Database) :
  exists d every,
    fst (getDashboardMetrics Number_toString db) = Data d /\
    fst (getExpensesByCategory Number_toString db)
    = Data (expenseByCategorySummary d) /\
    fst (getProducts None db) = Data every /\
    Forall (fun vm => vm ∈ every) (popularProducts d).
Proof.
  destruct (sort_by_rows ExpenseByCategory.to_json "amount" false
              by_amount_desc (expense_by_category db) amount_order)
    as (cs & Hcs & _).
  rewrite getDashboardMetrics_eq, Promise_all_dashboard.
  rewrite getExpensesByCategory_eq.
  change (fst (await (from "expense_by_category" |> select
                      |> order "amount" false) db))
    with (Success
            (sort_by {| order_column := "amount"; ascending := false |}
               (map ExpenseByCategory.to_json (expense_by_category db)))).
  rewrite getProducts_all.
  cbn [dashboard_of throw_if_error try_bind]. rewrite Hcs, try_map_to_json.
  cbn [try_bind try_catch fst].
  eexists. eexists. split; [reflexivity|]. split; [reflexivity|].
  split; [reflexivity|]. cbn [popularProducts].
  apply Forall_forall. intros vm Hvm.
  apply list_elem_of_fmap in Hvm as (row & -> & Hrow).
  apply (subseteq_take 5), elem_of_sort_by in Hrow.
  apply list_elem_of_fmap in Hrow as (r & -> & Hr).
  rewrite mapProduct_to_json. now apply list_elem_of_fmap_2.
Qed.

End Dashboard.

(** ** [createProduct] and the state of the store *)

Section Writes.

Variable Number_toString : Q -> string.

Lemma createProduct_stored (np : NewProduct) (db : Database) :
  accepted np = true ->
  gen_random_uuid db (tick db) ∉ map Products.product_id (products db) ->
  createProduct np db
  = (Data (productView (created db np)),
     advance (store_product (created db np) db)).
Proof.
  intros Haccepted Hfresh.
  rewrite createProduct_on_postgres, (new_product_accepted np db Haccepted).
  now rewrite bool_decide_eq_false_2 by exact Hfresh.
Qed.

(** A call either stores the row made of the input, or fails and stores
    nothing. *)
Lemma createProduct_cases (np : NewProduct) (db : Database) :
  (accepted np = true /\
   (gen_random_uuid db (tick db) ∉ map Products.product_id (products db)) /\
   createProduct np db
   = (Data (productView (created db np)),
      advance (store_product (created db np) db))) \/
  (exists e, createProduct np db = (Error (envelope_of e), advance db)).
Proof.
  destruct (accepted np) eqn:Haccepted.
  - destruct (decide (gen_random_uuid db (tick db)
                      ∈ map Products.product_id (products db)))
      as [Htaken|Hfresh].
    + right.
      rewrite createProduct_on_postgres, (new_product_accepted np db Haccepted).
      rewrite bool_decide_eq_true_2 by exact Htaken. now eexists.
    + left. split; [reflexivity|]. split; [exact Hfresh|].
      now apply createProduct_stored.
  - right. rewrite createProduct_on_postgres.
    destruct (new_product_refused np db Haccepted) as [e ->]. now eexists.
Qed.

(** X10. [createProduct] keeps the constraints of the [products] table:
    if every stored product passes the three checks and no two share an
    identifier, the same holds after the call, whatever the input and
    whether the call succeeds or fails. *)
Theorem createProduct_keeps_constraints (np : NewProduct) (db : Database) :
  products_valid db -> products_valid (snd (createProduct np db)).
Proof.
  intros [Hchecks Hkeys].
  destruct (createProduct_cases np db)
    as [(Haccepted & Hfresh & ->)|[e ->]]; [|now split].
  rewrite (accepted_checks np db) in Haccepted.
  repeat (apply andb_true_iff in Haccepted as [Haccepted ?]).
  unfold products_valid, advance, store_product. cbn [snd products]. split.
  - apply Forall_app. split; [exact Hchecks|]. now repeat constructor.
  - rewrite map_app. apply NoDup_app. split; [exact Hkeys|]. split.
    + intros id Hid Hnew. apply list_elem_of_singleton in Hnew as ->.
      now apply Hfresh.
    + apply NoDup_singleton.
Qed.

(** X11. When the identifier the store generates is already the key of
    a stored product, [createProduct] fails with the envelope of the
    primary-key violation, although the input itself is acceptable, and
    every table holds the rows it held before. *)
Theorem createProduct_refuses_taken_key (np : NewProduct) (db : Database) :
  accepted np = true ->
  gen_random_uuid db (tick db) ∈ map Products.product_id (products db) ->
  fst (createProduct np db)
  = Error (envelope_of (unique_violation "products_pkey")) /\
  same_tables (snd (createProduct np db)) db.
Proof.
  intros Haccepted Htaken.
  rewrite createProduct_on_postgres, (new_product_accepted np db Haccepted).
  rewrite bool_decide_eq_true_2 by exact Htaken.
  now repeat split.
Qed.




Lemma getExpensesByCategory_table (db db' : Database) :
  expense_by_category db = expense_by_category db' ->
  fst (getExpensesByCategory Number_toString db)
  = fst (getExpensesByCategory Number_toString db').
Proof.
  intros Htable. rewrite !getExpensesByCategory_eq.
  change (fst (await (from "expense_by_category" |> select
                      |> order "amount" false) db))
    with (Success
            (sort_by {| order_column := "amount"; ascending := false |}
               (map ExpenseByCategory.to_json (expense_by_category db)))).
  change (fst (await (from "expense_by_category" |> select
                      |> order "amount" false) db'))
    with (Success
            (sort_by {| order_column := "amount"; ascending := false |}
               (map ExpenseByCategory.to_json (expense_by_category db')))).
  now rewrite Htable.
Qed.

(** X14. The tags of the endpoints fit what [createProduct] writes.
    Every tag an endpoint provides or invalidates is a declared tag type;
    [createProduct] makes the two endpoints that read the [products]
    table, [getProducts] and [getDashboardMetrics], fetch again; and the
    two it leaves cached, [getUsers] and [getExpensesByCategory], return
    after the call, failed or not, what they returned before it. *)
Theorem createProduct_invalidates_what_it_changes
    (np : NewProduct) (db : Database) :
  (forall e tag,
     tag ∈ (providesTags e ++ invalidatesTags e)%list -> tag ∈ tagTypes) /\
  (forall q,
     refetched_after Endpoint.createProduct q = true <->
     q = Endpoint.getProducts \/ q = Endpoint.getDashboardMetrics) /\
  ("products" = table (getProducts_query None) /\
   "products" ∈ map table dashboard_queries) /\
  fst (getUsers (snd (createProduct np db))) = fst (getUsers db) /\
  fst (getExpensesByCategory Number_toString (snd (createProduct np db)))
  = fst (getExpensesByCategory Number_toString db).
Proof.
  split.
  { intros [] tag Htag; cbn in Htag;
      repeat (apply elem_of_cons in Htag as [->|Htag];
              [unfold tagTypes; set_solver|]);
      now apply elem_of_nil in Htag. }
  split.
  { intros []; cbn; split; intros Hq; try discriminate Hq; auto;
      destruct Hq as [Hq|Hq]; discriminate Hq. }
  split; [split; [reflexivity|apply list_elem_of_here]|].
  destruct (createProduct_cases np db) as [(_ & _ & ->)|[e ->]]; cbn [snd].
  - split; [now rewrite !getUsers_on_postgres|].
    now apply getExpensesByCategory_table.
  - split; [now rewrite !getUsers_on_postgres|].
    now apply getExpensesByCategory_table.
Qed.

End Writes.

(** ** Letter case of the stored names *)

Section Names.

Lemma matches_lowercase (ts : list token) (v : string) :
  matches ts (lowercase v) = matches ts v.
Proof.
  revert v. induction ts as [|[| |c] ts IH]; intros v.
  - now destruct v.
  - induction v as [|d v IHv];
      rewrite (matches_AnySeq ts (lowercase _)), (matches_AnySeq ts), IH;
      [reflexivity|].
    cbn [lowercase] in *. now rewrite IHv.
  - destruct v; cbn; [reflexivity|apply IH].
  - destruct v; cbn [lowercase matches]; [reflexivity|].
    now rewrite lower_idem, IH.
Qed.

(** X15. The letter case of the stored names does not matter either:
    whatever the search text, two products whose names differ only in the
    case of letters are both returned or both left out. *)
Theorem search_ignores_case_of_names (db : Database) (s : string) :
  exists keep,
    fst (getProducts (Some s) db)
    = Data (map productView (List.filter keep (products db))) /\
    forall r1 r2,
      lowercase (Products.name r1) = lowercase (Products.name r2) ->
      keep r1 = keep r2.
Proof.
  exists (name_ilike ("%" +:+ s +:+ "%")).
  split; [now rewrite getProducts_filter|].
  intros r1 r2 Hnames. unfold name_ilike, ilike_match.
  destruct (tokens (star_to_percent ("%" +:+ s +:+ "%"))) as [ts|];
    [|reflexivity].
  cbn. now rewrite <- (matches_lowercase ts (Products.name r1)), Hnames,
    matches_lowercase.
Qed.

End Names.

(** ** The further properties on sample data *)

Lemma search_ignores_case_witness :
  lowercase "LA" = lowercase "la" /\
  fst (getProducts (Some "LA") Seed.db) = fst (getProducts (Some "la") Seed.db).
Proof.
  split; [reflexivity|].
  apply (search_ignores_case Seed.db "LA" "la"). reflexivity.
Defined.

Lemma longer_search_returns_less_witness :
  plain ("Desk " +:+ "La" +:+ "mp") = true /\
  exists narrow wide,
    fst (getProducts (Some ("Desk " +:+ "La" +:+ "mp")) Seed.db) = Data narrow /\
    fst (getProducts (Some "La") Seed.db) = Data wide /\
    sublist narrow wide.
Proof.
  split; [reflexivity|].
  apply (longer_search_returns_less Seed.db "Desk " "La" "mp"). reflexivity.
Defined.

Lemma underscores_search_by_length_witness :
  ascii_names Seed.db = true /\
  fst (getProducts (Some (underscores 9)) Seed.db)
  = Data (map productView
            (List.filter
               (fun r => (9 <=? String.length (Products.name r))%nat)
               (products Seed.db))).
Proof.
  split; [reflexivity|].
  apply (underscores_search_by_length Seed.db 9). reflexivity.
Defined.

Lemma wildcard_search_returns_all_witness :
  only_wild "%*%" = true /\
  getProducts (Some "%*%") Seed.db = getProducts None Seed.db.
Proof.
  split; [reflexivity|].
  apply (wildcard_search_returns_all Seed.db "%*%"). reflexivity.
Defined.

(** The sample rows of the migration pass the constraints of their
    table. *)
Lemma seed_products_valid : products_valid Seed.db.
Proof.
  split.
  - repeat constructor.
  - apply (bool_decide_unpack _). vm_compute. exact I.
Qed.

Lemma createProduct_keeps_constraints_witness :
  products_valid Seed.db /\
  products_valid (snd (createProduct Sample.pen Seed.db)) /\
  products_valid (snd (createProduct Sample.bad Seed.db)).
Proof.
  split; [exact seed_products_valid|]. split.
  - apply (createProduct_keeps_constraints Sample.pen Seed.db).
    exact seed_products_valid.
  - apply (createProduct_keeps_constraints Sample.bad Seed.db).
    exact seed_products_valid.
Defined.

Lemma createProduct_refuses_taken_key_witness :
  accepted Sample.pen = true /\
  (gen_random_uuid Cases.taken (tick Cases.taken)
     ∈ map Products.product_id (products Cases.taken)) /\
  fst (createProduct Sample.pen Cases.taken)
  = Error (envelope_of (unique_violation "products_pkey")) /\
  same_tables (snd (createProduct Sample.pen Cases.taken)) Cases.taken.
Proof.
  assert (gen_random_uuid Cases.taken (tick Cases.taken)
            ∈ map Products.product_id (products Cases.taken)) as Htaken.
  { apply (bool_decide_unpack _). vm_compute. exact I. }
  split; [reflexivity|]. split; [exact Htaken|].
  apply (createProduct_refuses_taken_key Sample.pen Cases.taken);
    [reflexivity|exact Htaken].
Defined.


